(** * LearnMate backend: a shallow embedding of [main.py] and [schemas.py]

    The handlers of [main.py] are embedded as functions in a state-and-error
    monad over the document store.  Documents are Python dicts, hence finite
    maps from field names to values; a collection is the list of its
    documents in insertion order; the database maps collection names to
    collections, as [db["note"]] does.

    A handler is embedded up to the value it returns or the exception it
    raises: the validation of a request body before the handler runs and the
    serialisation of the returned value after it belong to the framework.
    Requests are served one after the other. *)

From Stdlib Require Import ZArith Lia Ascii.
From stdpp Require Import gmap strings list fin_maps pretty.

Open Scope string_scope.
Open Scope Z_scope.
Open Scope list_scope.

(** ** Values and documents *)

(** The values a stored document or a JSON response holds. *)
Inductive value :=
| VNull
| VBool (b : bool)
| VInt (z : Z)
| VStr (s : string)
| VTime (t : Z)
| VId (n : nat).

Global Instance value_eq_dec : EqDecision value.
Proof. solve_decision. Defined.

Abbreviation Doc := (gmap string value).

(** [None] is Python's [None]: an [Optional[str]] dumps to a string or null. *)
Definition opt_str (o : option string) : value :=
  match o with Some s => VStr s | None => VNull end.

(** Python truthiness of [x or d] on an optional string: [None] and the
    empty string are falsy. *)
Definition str_or (o : option string) (d : string) : string :=
  match o with
  | None => d
  | Some s => if decide (s = "") then d else s
  end.

(** Truthiness of the result of [find_one]: [None] and the empty dict are
    falsy. *)
Definition truthy_doc (o : option Doc) : bool :=
  match o with
  | None => false
  | Some d => bool_decide (d ≠ ∅)
  end.

(** The dict comprehension [{k: v for k, v in d.items() if k in fields}]. *)
Definition restrict (fields : list string) (d : Doc) : Doc :=
  filter (λ kv, kv.1 ∈ fields) d.

(** ** Mongo filters *)

#[local] Set Warnings "-register-all".

(** A filter is either a dict of field equalities or [{"$or": [...]}]. *)
Inductive query :=
| QEq (conds : list (string * value))
| QOr (alts : list query).

Fixpoint matches (q : query) (d : Doc) : bool :=
  match q with
  | QEq conds => forallb (λ kv, bool_decide (d !! kv.1 = Some kv.2)) conds
  | QOr alts => existsb (λ q', matches q' d) alts
  end.

(** ** The store *)

Record Database := mkDatabase {
  colls : gmap string (list Doc);
  next_id : nat
}.

Definition empty_db : Database := mkDatabase ∅ 0.

(** [db[name]]: a collection that was never written to is empty. *)
Definition coll (name : string) (d : Database) : list Doc :=
  default [] (colls d !! name).

Definition set_coll (name : string) (l : list Doc) (d : Database) : Database :=
  mkDatabase (<[name := l]> (colls d)) (next_id d).

(** ** Outcomes: a handler returns, raises [HTTPException], or raises
    another exception *)

Inductive outcome (A : Type) :=
| Ok (a : A)
| HTTPError (code : Z) (detail : string)
| Raised (what : string).
Arguments Ok {A} a.
Arguments HTTPError {A} code detail.
Arguments Raised {A} what.

(** The module-level [db] is [None] when no connection was made. *)
Definition M (A : Type) : Type := option Database → outcome A * option Database.

Definition ret {A} (a : A) : M A := λ s, (Ok a, s).

Definition bind {A B} (m : M A) (k : A → M B) : M B :=
  λ s, match m s with
       | (Ok a, s') => k a s'
       | (HTTPError c d, s') => (HTTPError c d, s')
       | (Raised w, s') => (Raised w, s')
       end.

Definition raise_http {A} (code : Z) (detail : string) : M A :=
  λ s, (HTTPError code detail, s).

Definition raise {A} (what : string) : M A := λ s, (Raised what, s).

Notation "'let*' x ':=' m 'in' k" := (bind m (λ x, k))
  (at level 10, x name, m at level 100, k at level 200, only parsing).
Notation "'run' m 'then' k" := (bind m (λ _, k))
  (at level 10, m at level 100, k at level 200, only parsing).

(** [if db is None: raise HTTPException(500, "Database not available")],
    giving the handle otherwise. *)
Definition require_db : M Database :=
  λ s, match s with
       | Some d => (Ok d, s)
       | None => (HTTPError 500 "Database not available", s)
       end.

Definition put_db (d : Database) : M unit := λ _, (Ok tt, Some d).

(** ** Driver operations on a collection *)

(** [insert_one]: the driver gives the document an [_id] unless it has one,
    and appends it. *)
Definition insert_one (name : string) (doc : Doc) (d : Database) : Database * value :=
  match doc !! "_id" with
  | Some i => (set_coll name (coll name d ++ [doc]) d, i)
  | None =>
      let i := VId (next_id d) in
      (mkDatabase (<[name := coll name d ++ [<["_id" := i]> doc]]> (colls d))
                  (S (next_id d)), i)
  end.

(** [find]: the matching documents, in storage order. *)
Definition find (name : string) (q : query) (d : Database) : list Doc :=
  List.filter (matches q) (coll name d).

(** [find_one]: the first matching document, or [None]. *)
Definition find_one (name : string) (q : query) (d : Database) : option Doc :=
  head (find name q d).

(** [delete_one]: removes the first matching document; the count deleted. *)
Fixpoint remove_first (q : query) (l : list Doc) : list Doc * Z :=
  match l with
  | [] => ([], 0)
  | x :: l' =>
      if matches q x then (l', 1)
      else let '(r, n) := remove_first q l' in (x :: r, n)
  end.

Definition delete_one (name : string) (q : query) (d : Database) : Database * Z :=
  let '(l, n) := remove_first q (coll name d) in
  (if decide (n = 0) then d else set_coll name l d, n).

(** [update_one(filter, {"$set": upd}, upsert=True)]: the fields of [upd]
    are written over those of the first matching document; when none
    matches, a new document is made of the filter's equalities, the fields
    of [upd] and a fresh [_id].  An empty [upd] changes nothing in the
    matching document, as on a server that accepts an empty [$set]. *)
Fixpoint update_first (q : query) (upd : Doc) (l : list Doc) : option (list Doc) :=
  match l with
  | [] => None
  | x :: l' =>
      if matches q x then Some ((upd ∪ x) :: l')
      else (x ::.) <$> update_first q upd l'
  end.

Definition query_fields (q : query) : Doc :=
  match q with
  | QEq conds => list_to_map conds
  | QOr _ => ∅
  end.

Definition update_one_upsert (name : string) (q : query) (upd : Doc)
    (d : Database) : Database :=
  match update_first q upd (coll name d) with
  | Some l => set_coll name l d
  | None => fst (insert_one name (upd ∪ query_fields q) d)
  end.

(** ** The [database] module *)

(** Modelled from the spec: [database.py] is not among the sources.  Its
    [create_document] is the spec's insert-one of a model's fields into the
    named collection, giving the new document's id, and it fails when the
    store is unavailable. *)
Definition create_document (name : string) (doc : Doc) : M value :=
  λ s, match s with
       | None => (Raised "Database not available", s)
       | Some d => let '(d', i) := insert_one name doc d in (Ok i, Some d')
       end.

(** Modelled from the spec: [get_documents] of the missing [database.py] is
    the spec's find-many-with-filter; without a filter it gives the whole
    collection. *)
Definition get_documents (name : string) (q : option query) : M (list Doc) :=
  λ s, match s with
       | None => (Raised "Database not available", s)
       | Some d => (Ok (find name (default (QEq []) q) d), s)
       end.

(** ** [schemas.py] *)

Module Profile.
Record t := mk {
  username : string;
  full_name : option string;
  language : string;
  push_notifications : bool
}.

Definition model_fields : list string :=
  ["username"; "full_name"; "language"; "push_notifications"].

(** [Profile(username=u)]: the other fields take their declared defaults. *)
Definition default (u : string) : t := mk u None "en" true.

Definition model_dump (p : t) : Doc :=
  {[ "username" := VStr (username p);
     "full_name" := opt_str (full_name p);
     "language" := VStr (language p);
     "push_notifications" := VBool (push_notifications p) ]}.

(** Validation of one keyword argument: an absent one takes the default. *)
Definition str_field (d : Doc) (k dflt : string) : option string :=
  match d !! k with
  | None => Some dflt
  | Some (VStr s) => Some s
  | Some _ => None
  end.

Definition opt_str_field (d : Doc) (k : string) : option (option string) :=
  match d !! k with
  | None | Some VNull => Some None
  | Some (VStr s) => Some (Some s)
  | Some _ => None
  end.

Definition lower_ascii (c : ascii) : ascii :=
  let n := nat_of_ascii c in
  if bool_decide (65 ≤ n ≤ 90)%nat then ascii_of_nat (n + 32) else c.

Fixpoint lower (s : string) : string :=
  match s with
  | EmptyString => EmptyString
  | String c s' => String (lower_ascii c) (lower s')
  end.

(** A [bool] field in the validator's lax mode also takes the integers 0
    and 1 and the usual spellings of a truth value. *)
Definition bool_field (d : Doc) (k : string) (dflt : bool) : option bool :=
  match d !! k with
  | None => Some dflt
  | Some (VBool b) => Some b
  | Some (VInt z) =>
      if decide (z = 0) then Some false
      else if decide (z = 1) then Some true else None
  | Some (VStr s) =>
      let s' := lower s in
      if bool_decide (s' ∈ ["0"; "off"; "f"; "false"; "n"; "no"]) then Some false
      else if bool_decide (s' ∈ ["1"; "on"; "t"; "true"; "y"; "yes"]) then Some true
      else None
  | Some _ => None
  end.

(** The constructor called with the entries of [d] as keyword arguments;
    [None] is a validation error. *)
Definition of_doc (d : Doc) : option t :=
  u ← str_field d "username" "guest";
  f ← opt_str_field d "full_name";
  l ← str_field d "language" "en";
  p ← bool_field d "push_notifications" true;
  Some (mk u f l p).
End Profile.

Module Course.
Record t := mk {
  title : string;
  subject : string;
  description : option string
}.

Definition model_fields : list string := ["title"; "subject"; "description"].

Definition model_dump (c : t) : Doc :=
  {[ "title" := VStr (title c);
     "subject" := VStr (subject c);
     "description" := opt_str (description c) ]}.
End Course.

Module Note.
Record t := mk {
  username : string;
  title : string;
  content : string
}.

Definition model_fields : list string := ["username"; "title"; "content"].

Definition model_dump (n : t) : Doc :=
  {[ "username" := VStr (username n);
     "title" := VStr (title n);
     "content" := VStr (content n) ]}.
End Note.

Module Practice.
Record t := mk {
  username : string;
  date : string;
  status : string
}.

Definition model_fields : list string := ["username"; "date"; "status"].

Definition model_dump (p : t) : Doc :=
  {[ "username" := VStr (username p);
     "date" := VStr (date p);
     "status" := VStr (status p) ]}.
End Practice.

Module QuizQuestion.
Record t := mk {
  subject : string;
  text : string;
  options : list string;
  correct_index : Z
}.

(** [options] has [min_length=2] and [correct_index] has [ge=0]. *)
Definition valid (q : t) : bool :=
  bool_decide (2 ≤ length (options q))%nat && bool_decide (0 ≤ correct_index q).
End QuizQuestion.

Module QuizResult.
Record t := mk {
  username : string;
  subject : string;
  total : Z;
  correct : Z;
  created_at : option Z
}.

(** [total] has [ge=1] and [correct] has [ge=0]. *)
Definition valid (r : t) : bool :=
  bool_decide (1 ≤ total r) && bool_decide (0 ≤ correct r).

Definition model_dump (r : t) : Doc :=
  {[ "username" := VStr (username r);
     "subject" := VStr (subject r);
     "total" := VInt (total r);
     "correct" := VInt (correct r);
     "created_at" := match created_at r with Some t => VTime t | None => VNull end ]}.
End QuizResult.

Module Notification.
Record t := mk {
  username : string;
  message : string;
  kind : string
}.

Definition model_fields : list string := ["username"; "message"; "kind"].

(** [Notification(message=m)]: username and kind take their defaults. *)
Definition of_message (m : string) : t := mk "guest" m "info".

Definition model_dump (n : t) : Doc :=
  {[ "username" := VStr (username n);
     "message" := VStr (message n);
     "kind" := VStr (kind n) ]}.
End Notification.

(** ** [main.py]: request bodies *)

Module NoteCreate.
Record t := mk {
  title : string;
  content : string;
  username : option string
}.
End NoteCreate.

Module QuizAnswer.
Record t := mk {
  answers : list Z;
  subject : option string;
  username : option string
}.
End QuizAnswer.

Module ProfileUpdate.
Record t := mk {
  username : option string;
  full_name : option string;
  language : option string;
  push_notifications : option bool
}.

Definition model_dump (p : t) : Doc :=
  {[ "username" := opt_str (username p);
     "full_name" := opt_str (full_name p);
     "language" := opt_str (language p);
     "push_notifications" :=
       match push_notifications p with Some b => VBool b | None => VNull end ]}.
End ProfileUpdate.

(** ** [main.py]: handlers *)

(** [for x in l: f(x)]. *)
Fixpoint for_each {A} (l : list A) (f : A → M unit) : M unit :=
  match l with
  | [] => ret tt
  | x :: l' => run f x then for_each l' f
  end.

Definition notify (message : string) : M value :=
  create_document "notification"
    (Notification.model_dump (Notification.of_message message)).

Definition read_root : M Doc :=
  ret {[ "message" := VStr "LearnMate Backend is running" ]}.

(** [db.count_documents({})] on a collection. *)
Definition count_documents (name : string) : M Z :=
  λ s, match s with
       | None => (Raised "AttributeError", s)
       | Some d => (Ok (Z.of_nat (length (coll name d))), s)
       end.

Definition db_is_not_none : M bool := λ s, (Ok (bool_decide (s ≠ None)), s).

Definition subjects : list (string * string) :=
  [("Mathematics", "Mathematics");
   ("Science", "Science");
   ("English", "English");
   ("Computer/ICT", "Computer/ICT");
   ("Social Studies", "Social Studies")].

Section Handlers.
(** What [bool(db)] gives on a connected handle; [None] when the handle
    refuses a truth test.  The handle is made in the missing
    [database.py], so the embedding takes this as a parameter. *)
Variable db_truth : option bool.

(** The test [if db] of [seed_data]: [None] is falsy. *)
Definition db_bool : M bool :=
  λ s, match s, db_truth with
       | None, _ => (Ok false, s)
       | Some _, Some b => (Ok b, s)
       | Some _, None => (Raised "NotImplementedError", s)
       end.

Definition seed_data : M Doc :=
  let* t := db_bool in
  let* existing := (if t : bool then count_documents "course" else ret 0) in
  let* avail := db_is_not_none in
  run (if bool_decide (existing = 0) && avail then
         run for_each subjects (λ '(title, subject),
               run create_document "course"
                     (Course.model_dump
                        (Course.mk title subject (Some ("Intro to " +:+ subject))))
               then ret tt)
         then run notify "New course added!" then ret tt
       else ret tt)
  then ret {[ "status" := VStr "ok" ]}.

Definition list_courses : M (list Doc) :=
  let* docs := get_documents "course" None in
  ret (restrict Course.model_fields <$> docs).

Definition get_notes (username : string) : M (list Doc) :=
  let* docs := get_documents "note" (Some (QEq [("username", VStr username)])) in
  ret (restrict Note.model_fields <$> docs).

Definition add_note (payload : NoteCreate.t) : M Doc :=
  let note := Note.mk (str_or (NoteCreate.username payload) "guest")
                      (NoteCreate.title payload) (NoteCreate.content payload) in
  let* note_id := create_document "note" (Note.model_dump note) in
  run notify "New note saved" then
  ret {[ "message" := VStr "Note saved successfully"; "id" := note_id ]}.

Definition delete_note (title username : string) : M Doc :=
  let* d := require_db in
  let '(d', deleted_count) :=
    delete_one "note" (QEq [("username", VStr username); ("title", VStr title)]) d in
  run put_db d' then
  if decide (deleted_count = 0) then raise_http 404 "Note not found"
  else
    run notify "Note deleted successfully" then
    ret {[ "message" := VStr "Note deleted successfully" ]}.

(** [today] is [date.today().isoformat()] at the time of the call. *)
Definition start_practice (username today : string) : M Doc :=
  let* d := require_db in
  let existing :=
    find_one "practice" (QEq [("username", VStr username); ("date", VStr today)]) d in
  if truthy_doc existing then
    ret {[ "message" := VStr "You have completed today’s practice, try again tomorrow" ]}
  else
    run create_document "practice"
          (Practice.model_dump (Practice.mk username today "completed")) then
    run notify "Start today’s practice" then
    ret {[ "message" := VStr "Practice saved successfully" ]}.

Definition practice_history (username : string) : M (list Doc) :=
  let* docs := get_documents "practice" (Some (QEq [("username", VStr username)])) in
  ret ((λ d : Doc, ({[ "date" := default VNull (d !! "date");
                       "status" := default VNull (d !! "status") ]} : Doc)) <$> docs).
End Handlers.

(** *** Quiz *)

Definition SAMPLE_QUESTIONS : list QuizQuestion.t :=
  [QuizQuestion.mk "General" "2 + 2 = ?" ["3"; "4"; "5"; "6"] 1;
   QuizQuestion.mk "General" "Capital of France?" ["Berlin"; "Paris"; "Madrid"; "Rome"] 1].

(** The [subject] parameter is taken and not used. *)
Definition get_quiz_questions (subject : string) : M (list QuizQuestion.t) :=
  ret SAMPLE_QUESTIONS.

(** [payload.answers[i] if i < len(payload.answers) else -1]; a list read
    out of range is an [IndexError], here [None]. *)
Definition answer_at (answers : list Z) (i : nat) : option Z :=
  if bool_decide (i < length answers)%nat then answers !! i else Some (-1).

(** The scoring loop of [submit_quiz], from position [i] on with [correct]
    counted so far. *)
Fixpoint score_from (i : nat) (bank : list QuizQuestion.t) (answers : list Z)
    (correct : Z) : option Z :=
  match bank with
  | [] => Some correct
  | q :: bank' =>
      ai ← answer_at answers i;
      score_from (S i) bank' answers
        (if decide (ai = QuizQuestion.correct_index q) then correct + 1 else correct)
  end.

Definition score (bank : list QuizQuestion.t) (answers : list Z) : option Z :=
  score_from 0 bank answers 0.

(** [now] is [datetime.now(timezone.utc)] at the time of the call. *)
Definition submit_quiz (payload : QuizAnswer.t) (now : Z) : M Doc :=
  let total := Z.of_nat (length SAMPLE_QUESTIONS) in
  match score SAMPLE_QUESTIONS (QuizAnswer.answers payload) with
  | None => raise "IndexError"
  | Some correct =>
      let result :=
        QuizResult.mk (str_or (QuizAnswer.username payload) "guest")
                      (str_or (QuizAnswer.subject payload) "General")
                      total correct (Some now) in
      if QuizResult.valid result then
        run create_document "quizresult" (QuizResult.model_dump result) then
        run notify ("Your quiz score: " +:+ pretty correct +:+ "/" +:+ pretty total) then
        ret {[ "message" := VStr "You have completed the quiz!";
               "correct" := VInt correct;
               "total" := VInt total ]}
      else raise "ValidationError"
  end.

(** *** Profile and settings *)

Definition get_profile (username : string) : M Profile.t :=
  let* d := require_db in
  let doc := find_one "profile" (QEq [("username", VStr username)]) d in
  if negb (truthy_doc doc) then
    let profile := Profile.default username in
    run create_document "profile" (Profile.model_dump profile) then
    ret profile
  else
    match Profile.of_doc (restrict Profile.model_fields (default ∅ doc)) with
    | Some p => ret p
    | None => raise "ValidationError"
    end.

Definition update_profile (payload : ProfileUpdate.t) : M Doc :=
  let* d := require_db in
  let username := str_or (ProfileUpdate.username payload) "guest" in
  let update : Doc :=
    filter (λ kv, kv.2 ≠ VNull ∧ kv.1 ≠ "username") (ProfileUpdate.model_dump payload) in
  run put_db (update_one_upsert "profile" (QEq [("username", VStr username)]) update d) then
  run notify "Profile updated" then
  ret {[ "message" := VStr "Saved successfully" ]}.

(** *** Notifications *)

Definition get_notifications (username : string) : M (list Doc) :=
  let* docs := get_documents "notification"
                 (Some (QOr [QEq [("username", VStr username)];
                             QEq [("username", VStr "guest")]])) in
  ret (restrict Notification.model_fields <$> docs).

Definition health : M Doc :=
  ret {[ "status" := VStr "ok"; "message" := VStr "Loading…" ]}.

(** ** Requests *)

(** One constructor for each route that reads or writes the store, with what
    the handler takes from its environment (the date, the clock).  The
    diagnostic route [/test] only reads the handle. *)
Inductive request :=
| Seed
| ListCourses
| GetNotes (username : string)
| AddNote (payload : NoteCreate.t)
| DeleteNote (title username : string)
| StartPractice (username today : string)
| PracticeHistory (username : string)
| GetQuizQuestions (subject : string)
| SubmitQuiz (payload : QuizAnswer.t) (now : Z)
| GetProfile (username : string)
| UpdateProfile (payload : ProfileUpdate.t)
| GetNotifications (username : string)
| ReadRoot
| Health.

(** The store after a request was served. *)
Definition serve (db_truth : option bool) (r : request) (s : option Database)
    : option Database :=
  match r with
  | Seed => (seed_data db_truth s).2
  | ListCourses => (list_courses s).2
  | GetNotes u => (get_notes u s).2
  | AddNote p => (add_note p s).2
  | DeleteNote t u => (delete_note t u s).2
  | StartPractice u today => (start_practice u today s).2
  | PracticeHistory u => (practice_history u s).2
  | GetQuizQuestions subj => (get_quiz_questions subj s).2
  | SubmitQuiz p now => (submit_quiz p now s).2
  | GetProfile u => (get_profile u s).2
  | UpdateProfile p => (update_profile p s).2
  | GetNotifications u => (get_notifications u s).2
  | ReadRoot => (read_root s).2
  | Health => (health s).2
  end.

(** The stores a connected, initially empty database goes through. *)
Inductive reachable (db_truth : option bool) : Database → Prop :=
| reachable_empty : reachable db_truth empty_db
| reachable_serve d r d' :
    reachable db_truth d →
    serve db_truth r (Some d) = Some d' →
    reachable db_truth d'.

(** ** Reference definitions *)

(** The tally by positional comparison: the answers are paired with the
    questions at the same position and the pairs that agree are counted.  A
    position of the bank without an answer makes no pair. *)
Definition tally (bank : list QuizQuestion.t) (answers : list Z) : Z :=
  Z.of_nat (length (filter (λ qa, qa.2 = QuizQuestion.correct_index qa.1)
                           (zip bank answers))).

(** What an update payload supplies for a field of the stored profile: the
    fields other than [username] that are present and not null. *)
Definition supplied (p : ProfileUpdate.t) (k : string) : option value :=
  if decide (k = "full_name") then VStr <$> ProfileUpdate.full_name p
  else if decide (k = "language") then VStr <$> ProfileUpdate.language p
  else if decide (k = "push_notifications") then VBool <$> ProfileUpdate.push_notifications p
  else None.

(** A document as [insert_one] stores it when [n] is the next fresh id. *)
Definition with_id (doc : Doc) (n : nat) : Doc :=
  match doc !! "_id" with
  | Some _ => doc
  | None => <["_id" := VId n]> doc
  end.

(** A notification made from a message alone, as it is stored. *)
Definition broadcast (n : Doc) : Prop :=
  ∃ (message : string) (i : nat),
    n = <["_id" := VId i]> (Notification.model_dump (Notification.of_message message)).

(** The store after the five courses of [seed_data] were inserted. *)
Definition seeded (d : Database) : Database :=
  foldl (λ acc ts,
           (insert_one "course"
              (Course.model_dump (Course.mk ts.1 ts.2 (Some ("Intro to " +:+ ts.2))))
              acc).1)
        d subjects.

(** The filter of [start_practice]. *)
Definition practice_query (username today : string) : query :=
  QEq [("username", VStr username); ("date", VStr today)].

(** The store after [Notification(message=...)] was created in it. *)
Definition notified (message : string) (d : Database) : Database :=
  (insert_one "notification"
     (Notification.model_dump (Notification.of_message message)) d).1.

(** The writes a request can make to a connected store [d]: none, or the
    ones of its handler. *)
Inductive effect (d : Database) : request → Database → Prop :=
| effect_none r : effect d r d
| effect_seed :
    effect d Seed (notified "New course added!" (seeded d))
| effect_add_note p :
    effect d (AddNote p)
      (notified "New note saved"
         (insert_one "note"
            (Note.model_dump
               (Note.mk (str_or (NoteCreate.username p) "guest")
                        (NoteCreate.title p) (NoteCreate.content p))) d).1)
| effect_delete_note title username l :
    effect d (DeleteNote title username)
      (notified "Note deleted successfully" (set_coll "note" l d))
| effect_start_practice username today :
    find "practice" (practice_query username today) d = [] →
    effect d (StartPractice username today)
      (notified "Start today’s practice"
         (insert_one "practice"
            (Practice.model_dump (Practice.mk username today "completed")) d).1)
| effect_submit_quiz p now message :
    effect d (SubmitQuiz p now)
      (notified message
         (insert_one "quizresult"
            (QuizResult.model_dump
               (QuizResult.mk (str_or (QuizAnswer.username p) "guest")
                              (str_or (QuizAnswer.subject p) "General")
                              (Z.of_nat (length SAMPLE_QUESTIONS))
                              (tally SAMPLE_QUESTIONS (QuizAnswer.answers p))
                              (Some now))) d).1)
| effect_get_profile username :
    find "profile" (QEq [("username", VStr username)]) d = [] →
    effect d (GetProfile username)
      (insert_one "profile" (Profile.model_dump (Profile.default username)) d).1
| effect_update_profile p :
    effect d (UpdateProfile p)
      (notified "Profile updated"
         (update_one_upsert "profile"
            (QEq [("username", VStr (str_or (ProfileUpdate.username p) "guest"))])
            (filter (λ kv, kv.2 ≠ VNull ∧ kv.1 ≠ "username") (ProfileUpdate.model_dump p))
            d)).

(** At most one practice record for a user and a day. *)
Definition practice_unique (d : Database) : Prop :=
  ∀ username today,
    (length (find "practice" (practice_query username today) d) ≤ 1)%nat.

(** The stored documents addressed by a username. *)
Definition has_username (u : string) (d : Doc) : Prop :=
  d !! "username" = Some (VStr u).

Global Instance has_username_dec u d : Decision (has_username u d).
Proof. unfold has_username. apply _. Defined.

(** [$set] with upsert, told on the profile collection [before] and [after]
    an update by payload [p] for username [u], [n] being the next fresh id:
    either the first record of [u] has the supplied fields written over and
    every other field kept, or there was no record of [u] and one is added
    that holds the username, the supplied fields and an id, nothing else. *)
Definition profile_upserted (p : ProfileUpdate.t) (u : string) (n : nat)
    (before after : list Doc) : Prop :=
  (∃ l1 x l2 x',
     before = l1 ++ x :: l2
     ∧ filter (has_username u) l1 = []
     ∧ has_username u x
     ∧ after = l1 ++ x' :: l2
     ∧ ∀ k, x' !! k = match supplied p k with Some v => Some v | None => x !! k end)
  ∨ (filter (has_username u) before = []
     ∧ ∃ new,
         after = before ++ [new]
         ∧ ∀ k, new !! k =
                  if decide (k = "_id") then Some (VId n)
                  else if decide (k = "username") then Some (VStr u)
                  else supplied p k).

(** The notes that [delete_note] looks for: those of a username with a
    title. *)
Definition note_of (username title : string) (doc : Doc) : Prop :=
  has_username username doc ∧ doc !! "title" = Some (VStr title).

Global Instance note_of_dec username title doc : Decision (note_of username title doc).
Proof. unfold note_of. apply _. Defined.

(** The filter of [delete_note]. *)
Definition note_query (username title : string) : query :=
  QEq [("username", VStr username); ("title", VStr title)].

(** At most one profile record for a username. *)
Definition profile_unique (d : Database) : Prop :=
  ∀ username, (length (filter (has_username username) (coll "profile" d)) ≤ 1)%nat.

(** The collections a request may write to. *)
Definition written (r : request) : list string :=
  match r with
  | Seed => ["course"; "notification"]
  | AddNote _ | DeleteNote _ _ => ["note"; "notification"]
  | StartPractice _ _ => ["practice"; "notification"]
  | SubmitQuiz _ _ => ["quizresult"; "notification"]
  | GetProfile _ => ["profile"]
  | UpdateProfile _ => ["profile"; "notification"]
  | ListCourses | GetNotes _ | PracticeHistory _ | GetQuizQuestions _
  | GetNotifications _ | ReadRoot | Health => []
  end.


(** An entry of the practice history made from a stored document: [get]
    gives null for a key that is missing. *)
Definition history_entry (doc : Doc) : Doc :=
  {[ "date" := default VNull (doc !! "date");
     "status" := default VNull (doc !! "status") ]}.

(** The stored form of [Notification(message=...)] with id [i]. *)
Definition notification_doc (i : nat) (message : string) : Doc :=
  <["_id" := VId i]> (Notification.model_dump (Notification.of_message message)).

(** * Properties *)

(** ** The monad and the store *)

Lemma bind_ok {A B} (m : M A) (k : A → M B) s a s' :
  m s = (Ok a, s') → bind m k s = k a s'.
Proof. unfold bind. by intros ->. Qed.

Lemma create_document_connected name doc d :
  create_document name doc (Some d) =
    (Ok (insert_one name doc d).2, Some (insert_one name doc d).1).
Proof. unfold create_document. by destruct (insert_one name doc d). Qed.

Lemma notify_connected message d :
  notify message (Some d) =
    (Ok (VId (next_id d)),
     Some (insert_one "notification"
             (Notification.model_dump (Notification.of_message message)) d).1).
Proof. unfold notify. by rewrite create_document_connected. Qed.

Lemma require_db_connected d : require_db (Some d) = (Ok d, Some d).
Proof. done. Qed.

Lemma coll_set_coll name l d : coll name (set_coll name l d) = l.
Proof. unfold coll, set_coll. simpl. by rewrite lookup_insert_eq. Qed.

Lemma coll_set_coll_ne name name' l d :
  name ≠ name' → coll name' (set_coll name l d) = coll name' d.
Proof. intros ?. unfold coll, set_coll. simpl. by rewrite lookup_insert_ne. Qed.

Lemma coll_insert_one name doc d :
  coll name (insert_one name doc d).1 = coll name d ++ [with_id doc (next_id d)].
Proof.
  unfold insert_one, with_id. destruct (doc !! "_id"); simpl.
  - apply coll_set_coll.
  - unfold coll. simpl. by rewrite lookup_insert_eq.
Qed.

Lemma coll_insert_one_ne name name' doc d :
  name ≠ name' → coll name' (insert_one name doc d).1 = coll name' d.
Proof.
  intros ?. unfold insert_one. destruct (doc !! "_id"); simpl.
  - by apply coll_set_coll_ne.
  - unfold coll. simpl. by rewrite lookup_insert_ne.
Qed.

(** Runs the monad on a connected store, one call at a time. *)
Ltac mstep :=
  first
    [ rewrite create_document_connected
    | rewrite notify_connected
    | rewrite require_db_connected
    | erewrite bind_ok by first [ apply create_document_connected
                               | apply notify_connected
                               | apply require_db_connected
                               | reflexivity ] ].

(** ** Quiz scoring *)

Lemma SAMPLE_QUESTIONS_valid :
  Forall (λ q, QuizQuestion.valid q = true) SAMPLE_QUESTIONS.
Proof. repeat constructor. Qed.

Lemma valid_correct_index q :
  QuizQuestion.valid q = true → 0 ≤ QuizQuestion.correct_index q.
Proof.
  unfold QuizQuestion.valid. intros H.
  apply andb_true_iff in H as [_ H]. by apply bool_decide_eq_true in H.
Qed.

(** The loop reads [answers] only inside its bounds, and the sentinel never
    adds to the count. *)
Lemma score_from_tally bank : ∀ answers i correct,
  Forall (λ q, QuizQuestion.valid q = true) bank →
  score_from i bank answers correct = Some (correct + tally bank (drop i answers)).
Proof.
  induction bank as [|q bank IH]; intros answers i correct Hv; simpl.
  - unfold tally. simpl. f_equal. lia.
  - inversion Hv as [|? ? Hq Hbank]; subst.
    pose proof (valid_correct_index _ Hq) as Hge.
    unfold answer_at. case_bool_decide as Hlt.
    + destruct (lookup_lt_is_Some_2 answers i Hlt) as [a Ha].
      rewrite Ha. simpl. rewrite IH by done.
      rewrite (drop_S _ _ _ Ha). unfold tally. simpl.
      rewrite filter_cons. simpl.
      destruct (decide (a = QuizQuestion.correct_index q)) as [->|Hne].
      * simpl. f_equal. lia.
      * done.
    + simpl. rewrite decide_False by lia. rewrite IH by done.
      rewrite !drop_ge by lia. unfold tally. by destruct bank.
Qed.

Lemma score_tally bank answers :
  Forall (λ q, QuizQuestion.valid q = true) bank →
  score bank answers = Some (tally bank answers).
Proof.
  intros Hv. unfold score. rewrite score_from_tally by done.
  by rewrite drop_0.
Qed.

Lemma tally_bounds bank answers : 0 ≤ tally bank answers ≤ Z.of_nat (length bank).
Proof.
  unfold tally. split; [lia|].
  apply inj_le. etrans; [apply length_filter|].
  rewrite length_zip_with. lia.
Qed.

(** The outcome of [submit_quiz] on a connected store. *)
Lemma submit_quiz_connected payload now d :
  let correct := tally SAMPLE_QUESTIONS (QuizAnswer.answers payload) in
  let total := Z.of_nat (length SAMPLE_QUESTIONS) in
  let result :=
    QuizResult.mk (str_or (QuizAnswer.username payload) "guest")
                  (str_or (QuizAnswer.subject payload) "General")
                  total correct (Some now) in
  let d1 := (insert_one "quizresult" (QuizResult.model_dump result) d).1 in
  let d2 := (insert_one "notification"
               (Notification.model_dump
                  (Notification.of_message
                     ("Your quiz score: " +:+ pretty correct +:+ "/" +:+ pretty total)))
               d1).1 in
  submit_quiz payload now (Some d) =
    (Ok {[ "message" := VStr "You have completed the quiz!";
           "correct" := VInt correct;
           "total" := VInt total ]}, Some d2).
Proof.
  intros correct total result d1 d2. unfold submit_quiz.
  rewrite (score_tally _ _ SAMPLE_QUESTIONS_valid).
  fold correct total result.
  assert (QuizResult.valid result = true) as ->.
  { unfold QuizResult.valid.
    pose proof (tally_bounds SAMPLE_QUESTIONS (QuizAnswer.answers payload)).
    rewrite andb_true_iff, !bool_decide_eq_true. subst result correct total. simpl in *. lia. }
  do 2 (erewrite bind_ok by apply create_document_connected).
  done.
Qed.

(** C2: against the two sample questions the answers [1, 1] score 2 of 2 and
    no answers score 0 of 2; the response reports the tally, and its total
    is the length of the bank whatever is submitted. *)
Theorem submit_quiz_sample_scores :
  (∀ subject username now d,
     (submit_quiz (QuizAnswer.mk [1; 1] subject username) now (Some d)).1 =
       Ok {[ "message" := VStr "You have completed the quiz!";
             "correct" := VInt 2; "total" := VInt 2 ]})
  ∧ (∀ subject username now d,
       (submit_quiz (QuizAnswer.mk [] subject username) now (Some d)).1 =
         Ok {[ "message" := VStr "You have completed the quiz!";
               "correct" := VInt 0; "total" := VInt 2 ]})
  ∧ (∀ payload now d,
       (submit_quiz payload now (Some d)).1 =
         Ok {[ "message" := VStr "You have completed the quiz!";
               "correct" := VInt (tally SAMPLE_QUESTIONS (QuizAnswer.answers payload));
               "total" := VInt (Z.of_nat (length SAMPLE_QUESTIONS)) ]}).
Proof.
  split_and!; intros; by rewrite submit_quiz_connected.
Qed.

(** C7: the listing of quiz questions takes a subject and does not use it:
    every subject gets the whole bank, and the store is left as it was. *)
Theorem get_quiz_questions_ignores_subject (subject subject' : string) s :
  get_quiz_questions subject s = (Ok SAMPLE_QUESTIONS, s)
  ∧ get_quiz_questions subject s = get_quiz_questions subject' s.
Proof. done. Qed.

(** C8: when fewer answers than questions are submitted, each position
    without an answer is read as the sentinel -1 and no read leaves the
    list; a valid question has a correct index of at least 0, which the
    sentinel never equals, so these positions add nothing to the score: the
    score is that of the questions that were answered. *)
Theorem short_answers_scored_wrong (bank : list QuizQuestion.t) (answers : list Z) :
  Forall (λ q, QuizQuestion.valid q = true) bank →
  (length answers < length bank)%nat →
  (∀ i, (length answers ≤ i)%nat → answer_at answers i = Some (-1))
  ∧ (∀ i, is_Some (answer_at answers i))
  ∧ (∀ q, q ∈ bank → QuizQuestion.correct_index q ≠ -1)
  ∧ is_Some (score bank answers)
  ∧ score bank answers = score (take (length answers) bank) answers.
Proof.
  intros Hv Hlen. split_and!.
  - intros i Hi. unfold answer_at. by rewrite bool_decide_eq_false_2 by lia.
  - intros i. unfold answer_at. case_bool_decide; [|by eexists].
    by apply lookup_lt_is_Some_2.
  - intros q Hq. rewrite Forall_forall in Hv.
    pose proof (valid_correct_index q (Hv q Hq)). lia.
  - rewrite score_tally by done. by eexists.
  - rewrite !score_tally by (done || by apply Forall_take).
    unfold tally. by rewrite (zip_with_take_l pair bank answers).
Qed.

Lemma short_answers_scored_wrong_witness :
  score SAMPLE_QUESTIONS [1] = score (take 1 SAMPLE_QUESTIONS) [1].
Proof.
  apply (short_answers_scored_wrong SAMPLE_QUESTIONS [1]).
  - apply SAMPLE_QUESTIONS_valid.
  - simpl. lia.
Defined.

(** ** Filters and the driver operations *)

Lemma filter_matches {A} (f : A → bool) (P : A → Prop) `{∀ x, Decision (P x)}
    (l : list A) :
  (∀ x, f x = true ↔ P x) → List.filter f l = filter P l.
Proof.
  intros Hf. induction l as [|x l IH]; [done|]. simpl.
  rewrite filter_cons, IH. destruct (f x) eqn:E.
  - rewrite decide_True; [done|]. by apply Hf.
  - rewrite decide_False; [done|]. intros HP%Hf. congruence.
Qed.

Lemma matches_username u d :
  matches (QEq [("username", VStr u)]) d = true ↔ has_username u d.
Proof.
  simpl. rewrite andb_true_r, bool_decide_eq_true. done.
Qed.

Lemma matches_user_or_guest u d :
  matches (QOr [QEq [("username", VStr u)]; QEq [("username", VStr "guest")]]) d = true
  ↔ has_username u d ∨ has_username "guest" d.
Proof.
  simpl. rewrite !andb_true_r, orb_false_r, orb_true_iff, !bool_decide_eq_true. done.
Qed.

Lemma matches_pair k1 v1 k2 v2 (d : Doc) :
  matches (QEq [(k1, v1); (k2, v2)]) d = true
  ↔ d !! k1 = Some v1 ∧ d !! k2 = Some v2.
Proof.
  simpl. rewrite andb_true_r, andb_true_iff, !bool_decide_eq_true. done.
Qed.

(** Either no document matches, or there is a first one that does. *)
Lemma first_match (f : Doc → bool) (l : list Doc) :
  List.filter f l = []
  ∨ ∃ l1 x l2, l = l1 ++ x :: l2 ∧ List.filter f l1 = [] ∧ f x = true.
Proof.
  induction l as [|y l IH]; [by left|]. simpl. destruct (f y) eqn:E.
  - right. by exists [], y, l.
  - destruct IH as [IH|(l1 & x & l2 & -> & H1 & Hx)]; [by left|].
    right. exists (y :: l1), x, l2. simpl. by rewrite E.
Qed.

Lemma filter_first f (l1 l2 : list Doc) x :
  List.filter f l1 = [] → f x = true →
  List.filter f (l1 ++ x :: l2) = x :: List.filter f l2.
Proof. intros H1 Hx. rewrite List.filter_app, H1. simpl. by rewrite Hx. Qed.

Lemma remove_first_none q l :
  List.filter (matches q) l = [] → remove_first q l = (l, 0).
Proof.
  induction l as [|y l IH]; [done|]. simpl.
  destruct (matches q y); [done|]. intros H. by rewrite IH.
Qed.

Lemma remove_first_some q l1 x l2 :
  List.filter (matches q) l1 = [] → matches q x = true →
  remove_first q (l1 ++ x :: l2) = (l1 ++ l2, 1).
Proof.
  intros H1 Hx. induction l1 as [|y l1 IH]; simpl.
  - by rewrite Hx.
  - simpl in H1. destruct (matches q y); [done|]. by rewrite IH.
Qed.

Lemma update_first_none q upd l :
  List.filter (matches q) l = [] → update_first q upd l = None.
Proof.
  induction l as [|y l IH]; [done|]. simpl.
  destruct (matches q y); [done|]. intros H. by rewrite IH.
Qed.

Lemma update_first_some q upd l1 x l2 :
  List.filter (matches q) l1 = [] → matches q x = true →
  update_first q upd (l1 ++ x :: l2) = Some (l1 ++ (upd ∪ x) :: l2).
Proof.
  intros H1 Hx. induction l1 as [|y l1 IH]; simpl.
  - by rewrite Hx.
  - simpl in H1. destruct (matches q y); [done|]. by rewrite IH.
Qed.

(** ** Notes *)

(** C4: deleting a note answers 404 exactly when no stored note matches the
    username and title, and then changes nothing; when some note matches,
    one matching note is removed, also among duplicates, and every other
    note stays, in its place. *)
Theorem delete_note_removes_one (title username : string) (d : Database) :
  let P := λ doc : Doc, has_username username doc ∧ doc !! "title" = Some (VStr title) in
  let notes := coll "note" d in
  let r := delete_note title username (Some d) in
  (r.1 = HTTPError 404 "Note not found" ↔ filter P notes = [])
  ∧ (filter P notes = [] → r.2 = Some d)
  ∧ (filter P notes ≠ [] →
     ∃ d', r = (Ok {[ "message" := VStr "Note deleted successfully" ]}, Some d')
       ∧ (∃ l1 x l2, notes = l1 ++ x :: l2 ∧ P x ∧ coll "note" d' = l1 ++ l2)
       ∧ length (filter P (coll "note" d')) = pred (length (filter P notes))
       ∧ filter (λ doc, ¬ P doc) (coll "note" d') = filter (λ doc, ¬ P doc) notes).
Proof.
  intros P notes r.
  set (q := QEq [("username", VStr username); ("title", VStr title)]).
  assert (Hq : ∀ doc, matches q doc = true ↔ P doc) by (intros; apply matches_pair).
  assert (HP : filter P notes = List.filter (matches q) notes)
    by (symmetry; by apply filter_matches).
  subst r. unfold delete_note. mstep. unfold delete_one. fold q notes.
  destruct (first_match (matches q) notes) as [Hnone|(l1 & x & l2 & Hsplit & H1 & Hx)].
  - rewrite (remove_first_none _ _ Hnone). rewrite decide_True by done.
    rewrite HP, Hnone. unfold bind, put_db, raise_http. simpl. split_and!; done.
  - assert (Hne : filter P notes ≠ []).
    { rewrite HP, Hsplit, (filter_first _ _ _ _ H1 Hx). done. }
    clearbody notes. subst notes.
    rewrite (remove_first_some _ _ _ _ H1 Hx). rewrite decide_False by done.
    erewrite bind_ok by reflexivity. rewrite decide_False by done.
    erewrite bind_ok by apply notify_connected. unfold ret. simpl.
    split_and!; [split; done | done |]. intros _.
    eexists. split; [done|].
    rewrite coll_insert_one_ne, coll_set_coll by done.
    split_and!.
    + exists l1, x, l2. split_and!; [done| by apply Hq |done].
    + rewrite !filter_app, filter_cons, decide_True by (by apply Hq).
      rewrite !length_app. simpl. lia.
    + rewrite !filter_app, filter_cons, decide_False; [done|].
      intros HnP. apply HnP. by apply Hq.
Qed.

(** ** Notifications *)

Lemma get_notifications_connected username d :
  get_notifications username (Some d) =
    (Ok (restrict Notification.model_fields <$>
           filter (λ doc, has_username username doc ∨ has_username "guest" doc)
                  (coll "notification" d)),
     Some d).
Proof.
  unfold get_notifications, get_documents, bind, ret, find. simpl default.
  f_equal. f_equal. f_equal. apply filter_matches. apply matches_user_or_guest.
Qed.


(** ** What each writing handler does to a connected store *)

Lemma find_one_none name q d :
  find name q d = [] → truthy_doc (find_one name q d) = false.
Proof. unfold find_one. by intros ->. Qed.

(** A document found by a filter on some field is not the empty dict, so it
    is truthy. *)
Lemma find_one_some name k v conds d x l :
  find name (QEq ((k, v) :: conds)) d = x :: l →
  find_one name (QEq ((k, v) :: conds)) d = Some x
  ∧ truthy_doc (Some x) = true.
Proof.
  intros Hf. unfold find_one. rewrite Hf. split; [done|].
  assert (x ∈ find name (QEq ((k, v) :: conds)) d) as Hin by (rewrite Hf; left).
  unfold find in Hin. apply list_elem_of_In, List.filter_In in Hin as [_ Hm].
  simpl in Hm. apply andb_true_iff in Hm as [Hm _].
  apply bool_decide_eq_true in Hm. simpl in Hm.
  apply bool_decide_eq_true. intros ->. by rewrite lookup_empty in Hm.
Qed.

Lemma add_note_connected payload d :
  let note := Note.mk (str_or (NoteCreate.username payload) "guest")
                      (NoteCreate.title payload) (NoteCreate.content payload) in
  let d1 := (insert_one "note" (Note.model_dump note) d).1 in
  add_note payload (Some d) =
    (Ok {[ "message" := VStr "Note saved successfully";
           "id" := (insert_one "note" (Note.model_dump note) d).2 ]},
     Some (insert_one "notification"
             (Notification.model_dump (Notification.of_message "New note saved")) d1).1).
Proof.
  intros note d1. unfold add_note.
  erewrite bind_ok by apply create_document_connected.
  by erewrite bind_ok by apply notify_connected.
Qed.

Lemma start_practice_done username today d :
  find "practice" (QEq [("username", VStr username); ("date", VStr today)]) d ≠ [] →
  start_practice username today (Some d) =
    (Ok {[ "message" := VStr "You have completed today’s practice, try again tomorrow" ]},
     Some d).
Proof.
  intros Hf. unfold start_practice. mstep.
  destruct (find "practice" _ d) as [|x l] eqn:E; [done|].
  destruct (find_one_some _ _ _ _ _ _ _ E) as [-> ->]. done.
Qed.

Lemma start_practice_new username today d :
  find "practice" (QEq [("username", VStr username); ("date", VStr today)]) d = [] →
  let d1 := (insert_one "practice"
               (Practice.model_dump (Practice.mk username today "completed")) d).1 in
  start_practice username today (Some d) =
    (Ok {[ "message" := VStr "Practice saved successfully" ]},
     Some (insert_one "notification"
             (Notification.model_dump (Notification.of_message "Start today’s practice"))
             d1).1).
Proof.
  intros Hf d1. unfold start_practice. mstep.
  rewrite (find_one_none _ _ _ Hf).
  erewrite bind_ok by apply create_document_connected.
  by erewrite bind_ok by apply notify_connected.
Qed.

Lemma get_profile_new username d :
  find "profile" (QEq [("username", VStr username)]) d = [] →
  get_profile username (Some d) =
    (Ok (Profile.default username),
     Some (insert_one "profile" (Profile.model_dump (Profile.default username)) d).1).
Proof.
  intros Hf. unfold get_profile. mstep.
  rewrite (find_one_none _ _ _ Hf). cbn [negb].
  by erewrite bind_ok by apply create_document_connected.
Qed.

Lemma get_profile_stored username d x l :
  find "profile" (QEq [("username", VStr username)]) d = x :: l →
  get_profile username (Some d) =
    (match Profile.of_doc (restrict Profile.model_fields x) with
     | Some p => Ok p
     | None => Raised "ValidationError"
     end, Some d).
Proof.
  intros Hf. unfold get_profile. mstep.
  destruct (find_one_some _ _ _ _ _ _ _ Hf) as [Hone Ht]. rewrite Hone, Ht.
  simpl. by destruct (Profile.of_doc _).
Qed.

Lemma update_profile_connected payload d :
  let username := str_or (ProfileUpdate.username payload) "guest" in
  let update : Doc :=
    filter (λ kv, kv.2 ≠ VNull ∧ kv.1 ≠ "username") (ProfileUpdate.model_dump payload) in
  let d1 := update_one_upsert "profile" (QEq [("username", VStr username)]) update d in
  update_profile payload (Some d) =
    (Ok {[ "message" := VStr "Saved successfully" ]},
     Some (insert_one "notification"
             (Notification.model_dump (Notification.of_message "Profile updated")) d1).1).
Proof.
  intros username update d1. unfold update_profile. mstep.
  erewrite bind_ok by reflexivity.
  by erewrite bind_ok by apply notify_connected.
Qed.

Lemma for_each_seed d :
  for_each subjects
    (λ '(title, subject),
       bind (create_document "course"
               (Course.model_dump
                  (Course.mk title subject (Some ("Intro to " +:+ subject)))))
            (λ _, ret tt))
    (Some d) = (Ok tt, Some (seeded d)).
Proof.
  unfold subjects, seeded. simpl.
  repeat (erewrite bind_ok;
          [| erewrite bind_ok by apply create_document_connected; reflexivity]).
  done.
Qed.

Lemma seed_data_connected db_truth d :
  (seed_data db_truth (Some d)).2 = Some d
  ∨ (seed_data db_truth (Some d)).2 =
      Some (insert_one "notification"
              (Notification.model_dump (Notification.of_message "New course added!"))
              (seeded d)).1.
Proof.
  assert (Hseed : ∀ k : unit → M Doc, (∀ s, (k tt s).2 = s) →
    (bind (bind (for_each subjects
             (λ '(title, subject),
                bind (create_document "course"
                        (Course.model_dump
                           (Course.mk title subject (Some ("Intro to " +:+ subject)))))
                     (λ _, ret tt)))
            (λ _, bind (notify "New course added!") (λ _, ret tt))) k (Some d)).2 =
      Some (insert_one "notification"
              (Notification.model_dump (Notification.of_message "New course added!"))
              (seeded d)).1).
  { intros k Hk. erewrite bind_ok; [apply Hk|].
    erewrite bind_ok by apply for_each_seed.
    by erewrite bind_ok by apply notify_connected. }
  unfold seed_data, db_bool. destruct db_truth as [[]|].
  - erewrite bind_ok by reflexivity. erewrite bind_ok by reflexivity.
    erewrite bind_ok by reflexivity.
    case_bool_decide; simpl andb; cbv iota.
    + right. by apply Hseed.
    + left. done.
  - do 3 (erewrite bind_ok by reflexivity). simpl andb. cbv iota.
    right. by apply Hseed.
  - left. done.
Qed.

Lemma coll_seeded name d : name ≠ "course" → coll name (seeded d) = coll name d.
Proof.
  intros ?. unfold seeded, subjects. simpl.
  by rewrite !coll_insert_one_ne by done.
Qed.

Lemma with_id_notification message n :
  with_id (Notification.model_dump (Notification.of_message message)) n =
    <["_id" := VId n]> (Notification.model_dump (Notification.of_message message)).
Proof. done. Qed.

Lemma with_id_practice p n :
  with_id (Practice.model_dump p) n = <["_id" := VId n]> (Practice.model_dump p).
Proof. done. Qed.

Lemma with_id_profile p n :
  with_id (Profile.model_dump p) n = <["_id" := VId n]> (Profile.model_dump p).
Proof. done. Qed.

Lemma delete_note_connected title username d :
  (delete_note title username (Some d)).2 = Some d
  ∨ ∃ l, (delete_note title username (Some d)).2 =
           Some (notified "Note deleted successfully" (set_coll "note" l d)).
Proof.
  unfold delete_note. mstep. unfold delete_one.
  destruct (remove_first _ (coll "note" d)) as [l n].
  erewrite bind_ok by reflexivity.
  destruct (decide (n = 0)); [by left|].
  right. exists l. by erewrite bind_ok by apply notify_connected.
Qed.

(** Every request served on a connected store has one of the effects. *)
Lemma serve_effect db_truth r d d' :
  serve db_truth r (Some d) = Some d' → effect d r d'.
Proof.
  destruct r; simpl; intros H.
  - destruct (seed_data_connected db_truth d) as [E|E];
      rewrite E in H; injection H as <-; constructor.
  - injection H as <-; constructor.
  - injection H as <-; constructor.
  - rewrite add_note_connected in H. injection H as <-. constructor.
  - destruct (delete_note_connected title username d) as [E|[l E]];
      rewrite E in H; injection H as <-; constructor.
  - destruct (find "practice" (practice_query username today) d) eqn:E.
    + rewrite start_practice_new in H by done. injection H as <-. by constructor.
    + rewrite start_practice_done in H by (unfold practice_query in E; by rewrite E).
      injection H as <-. constructor.
  - injection H as <-; constructor.
  - injection H as <-; constructor.
  - rewrite submit_quiz_connected in H. injection H as <-. constructor.
  - destruct (find "profile" (QEq [("username", VStr username)]) d) eqn:E.
    + rewrite get_profile_new in H by done. injection H as <-. by constructor.
    + rewrite (get_profile_stored _ _ _ _ E) in H. injection H as <-. constructor.
  - rewrite update_profile_connected in H. injection H as <-. constructor.
  - injection H as <-; constructor.
  - injection H as <-; constructor.
  - injection H as <-; constructor.
Qed.

(** ** Frame properties of the effects *)

Lemma coll_update_one_upsert_ne name name' q upd d :
  name ≠ name' → coll name' (update_one_upsert name q upd d) = coll name' d.
Proof.
  intros ?. unfold update_one_upsert. destruct (update_first _ _ _).
  - by apply coll_set_coll_ne.
  - by apply coll_insert_one_ne.
Qed.

Lemma coll_notified message d :
  coll "notification" (notified message d) =
    coll "notification" d ++
    [<["_id" := VId (next_id d)]>
       (Notification.model_dump (Notification.of_message message))].
Proof. unfold notified. by rewrite coll_insert_one. Qed.

Lemma coll_notified_ne name message d :
  name ≠ "notification" → coll name (notified message d) = coll name d.
Proof. intros ?. unfold notified. by rewrite coll_insert_one_ne. Qed.

Create Rewrite HintDb store.
#[local] Hint Rewrite coll_notified coll_set_coll coll_insert_one : store.
#[local] Hint Rewrite coll_notified_ne coll_insert_one_ne coll_set_coll_ne
  coll_update_one_upsert_ne coll_seeded using done : store.

Lemma effect_notifications d r d' :
  effect d r d' →
  ∃ new, coll "notification" d' = coll "notification" d ++ new
         ∧ Forall broadcast new.
Proof.
  destruct 1; autorewrite with store;
    try (eexists [_]; split; [done|]; repeat constructor; by eexists _, _).
  all: exists []; by rewrite app_nil_r.
Qed.

Lemma effect_practice d r d' :
  effect d r d' →
  coll "practice" d' = coll "practice" d
  ∨ ∃ username today,
      find "practice" (practice_query username today) d = []
      ∧ coll "practice" d' =
          coll "practice" d ++
          [<["_id" := VId (next_id d)]>
             (Practice.model_dump (Practice.mk username today "completed"))].
Proof.
  destruct 1; autorewrite with store; try by left.
  right. by exists username, today.
Qed.

(** ** Practice: one record for a user and a day *)

Lemma matches_new_practice username today username' today' n :
  matches (practice_query username' today')
    (<["_id" := VId n]> (Practice.model_dump (Practice.mk username today "completed")))
  = bool_decide (username' = username ∧ today' = today).
Proof.
  apply Bool.eq_true_iff_eq. unfold practice_query.
  rewrite matches_pair, bool_decide_eq_true.
  change (Some (VStr username) = Some (VStr username')
          ∧ Some (VStr today) = Some (VStr today')
          ↔ username' = username ∧ today' = today).
  split; intros [H1 H2]; [by simplify_eq | by subst].
Qed.

Lemma reachable_practice_unique db_truth d :
  reachable db_truth d → practice_unique d.
Proof.
  induction 1 as [|d r d' _ IH Hserve]; intros u t.
  - unfold find, coll. simpl. rewrite lookup_empty. simpl. lia.
  - apply serve_effect, effect_practice in Hserve as [E|(u' & t' & Hnone & E)];
      unfold find in *; rewrite E; [apply IH|].
    rewrite List.filter_app, length_app.
    change (List.filter ?f [?x]) with (if f x then [x] else []).
    rewrite matches_new_practice. case_bool_decide as Heq.
    + destruct Heq as [-> ->]. rewrite Hnone. simpl. lia.
    + specialize (IH u t). unfold find in IH. cbn [length]. lia.
Qed.

(** C1: on a store reached from the empty one by serving requests, two
    calls of practice-start for one username on one date leave exactly one
    practice record for that username and date; the second call answers
    that today's practice is done and leaves the whole store, the practice
    and the notification collections with it, as the first call left it. *)
Theorem start_practice_twice db_truth (d : Database) (username today : string) :
  reachable db_truth d →
  ∃ d1,
    (start_practice username today (Some d)).2 = Some d1
    ∧ start_practice username today (Some d1) =
        (Ok {[ "message" :=
                 VStr "You have completed today’s practice, try again tomorrow" ]},
         Some d1)
    ∧ length (filter (λ doc, has_username username doc
                             ∧ doc !! "date" = Some (VStr today))
                     (coll "practice" d1)) = 1%nat.
Proof.
  intros Hreach.
  pose proof (reachable_practice_unique _ _ Hreach username today) as Huniq.
  assert (Hfilter : ∀ l,
    filter (λ doc : Doc, has_username username doc ∧ doc !! "date" = Some (VStr today)) l
    = List.filter (matches (practice_query username today)) l).
  { intros l. symmetry. apply filter_matches. intros doc. apply matches_pair. }
  destruct (find "practice" (practice_query username today) d) as [|x l] eqn:E.
  - eexists. rewrite start_practice_new by done. split; [done|].
    assert (Hnew : find "practice" (practice_query username today)
                     (notified "Start today’s practice"
                        (insert_one "practice"
                           (Practice.model_dump
                              (Practice.mk username today "completed")) d).1)
                   = [with_id (Practice.model_dump
                                 (Practice.mk username today "completed"))
                              (next_id d)]).
    { unfold find in *. autorewrite with store.
      rewrite List.filter_app, E, with_id_practice.
      change (List.filter ?f [?x]) with (if f x then [x] else []).
      rewrite matches_new_practice. by rewrite bool_decide_eq_true_2. }
    unfold notified in Hnew. split.
    + apply start_practice_done. fold (practice_query username today).
      by rewrite Hnew.
    + rewrite Hfilter. unfold find in Hnew. by rewrite Hnew.
  - exists d. rewrite start_practice_done by (unfold practice_query in E; by rewrite E).
    split_and!; [done|done|].
    rewrite Hfilter. unfold find in *. rewrite E in *. simpl in *. lia.
Qed.

Lemma start_practice_twice_witness :
  ∃ d1,
    (start_practice "alice" "2024-05-01" (Some empty_db)).2 = Some d1
    ∧ start_practice "alice" "2024-05-01" (Some d1) =
        (Ok {[ "message" :=
                 VStr "You have completed today’s practice, try again tomorrow" ]},
         Some d1)
    ∧ length (filter (λ doc, has_username "alice" doc
                             ∧ doc !! "date" = Some (VStr "2024-05-01"))
                     (coll "practice" d1)) = 1%nat.
Proof.
  apply (start_practice_twice (Some true) empty_db "alice" "2024-05-01").
  apply reachable_empty.
Defined.


(** ** Profile *)

Lemma matches_new_profile username n :
  matches (QEq [("username", VStr username)])
    (<["_id" := VId n]> (Profile.model_dump (Profile.default username))) = true.
Proof. apply matches_username. done. Qed.

Lemma of_doc_new_profile username n :
  Profile.of_doc
    (restrict Profile.model_fields
       (<["_id" := VId n]> (Profile.model_dump (Profile.default username))))
  = Some (Profile.default username).
Proof. done. Qed.

(** C3: for a username with no stored profile, the profile read makes the
    default profile of that username (language ["en"], push notifications
    on), stores it and returns it; a second read returns the same values and
    leaves the store, with its one record for the username, as it is. *)
Theorem get_profile_default (d : Database) (username : string) :
  filter (has_username username) (coll "profile" d) = [] →
  ∃ d1,
    get_profile username (Some d) =
      (Ok (Profile.mk username None "en" true), Some d1)
    ∧ coll "profile" d1 =
        coll "profile" d ++
        [<["_id" := VId (next_id d)]>
           (Profile.model_dump (Profile.mk username None "en" true))]
    ∧ get_profile username (Some d1) =
        (Ok (Profile.mk username None "en" true), Some d1)
    ∧ length (filter (has_username username) (coll "profile" d1)) = 1%nat.
Proof.
  intros Hnone.
  assert (Hfilter : ∀ l,
    filter (has_username username) l
    = List.filter (matches (QEq [("username", VStr username)])) l).
  { intros l. symmetry. apply filter_matches. intros doc. apply matches_username. }
  rewrite Hfilter in Hnone.
  eexists. rewrite get_profile_new by done. split; [done|].
  assert (Hnew : find "profile" (QEq [("username", VStr username)])
                   (insert_one "profile" (Profile.model_dump (Profile.default username)) d).1
                 = [<["_id" := VId (next_id d)]>
                      (Profile.model_dump (Profile.default username))]).
  { unfold find. rewrite coll_insert_one, List.filter_app, Hnone, with_id_profile.
    change (List.filter ?f [?x]) with (if f x then [x] else []).
    by rewrite matches_new_profile. }
  split_and!.
  - by rewrite coll_insert_one, with_id_profile.
  - rewrite (get_profile_stored _ _ _ _ Hnew). by rewrite of_doc_new_profile.
  - rewrite Hfilter. unfold find in Hnew. by rewrite Hnew.
Qed.

Lemma get_profile_default_witness :
  ∃ d1,
    get_profile "alice" (Some empty_db) =
      (Ok (Profile.mk "alice" None "en" true), Some d1)
    ∧ coll "profile" d1 =
        coll "profile" empty_db ++
        [<["_id" := VId (next_id empty_db)]>
           (Profile.model_dump (Profile.mk "alice" None "en" true))]
    ∧ get_profile "alice" (Some d1) =
        (Ok (Profile.mk "alice" None "en" true), Some d1)
    ∧ length (filter (has_username "alice") (coll "profile" d1)) = 1%nat.
Proof.
  apply (get_profile_default empty_db "alice"). reflexivity.
Defined.

(** ** Notifications are always broadcast *)

Lemma broadcast_fields n :
  broadcast n →
  has_username "guest" n ∧ n !! "kind" = Some (VStr "info").
Proof. intros (message & i & ->). done. Qed.

Lemma filter_Forall {A} (P : A → Prop) `{∀ x, Decision (P x)} (l : list A) :
  Forall P l → filter P l = l.
Proof.
  induction 1 as [|x l Hx _ IH]; [done|].
  by rewrite filter_cons_True, IH.
Qed.

Lemma reachable_broadcast db_truth d :
  reachable db_truth d → Forall broadcast (coll "notification" d).
Proof.
  induction 1 as [|d r d' _ IH Hserve].
  - unfold coll. simpl. rewrite lookup_empty. constructor.
  - apply serve_effect, effect_notifications in Hserve as (new & -> & Hnew).
    by apply Forall_app.
Qed.

(** C9: whatever request is served, the notifications it adds are made
    from a message alone, so their username is ["guest"] and their kind
    ["info"]; hence on every store reached from the empty one all stored
    notifications are addressed to ["guest"], and the listing shows every one
    of them to every username. *)
Theorem notifications_all_broadcast db_truth :
  (∀ r d d', serve db_truth r (Some d) = Some d' →
     ∃ new, coll "notification" d' = coll "notification" d ++ new
            ∧ Forall (λ n, broadcast n
                           ∧ n !! "username" = Some (VStr "guest")
                           ∧ n !! "kind" = Some (VStr "info")) new)
  ∧ (∀ d, reachable db_truth d →
       Forall (λ n, n !! "username" = Some (VStr "guest")
                    ∧ n !! "kind" = Some (VStr "info"))
              (coll "notification" d)
       ∧ ∀ username,
           get_notifications username (Some d) =
             (Ok (restrict Notification.model_fields <$> coll "notification" d),
              Some d)).
Proof.
  split.
  - intros r d d' Hserve.
    apply serve_effect, effect_notifications in Hserve as (new & -> & Hnew).
    exists new. split; [done|].
    eapply Forall_impl; [exact Hnew|]. intros n Hn.
    split; [done|]. by apply broadcast_fields.
  - intros d Hreach. apply reachable_broadcast in Hreach.
    assert (Hguest : Forall (λ n : Doc, has_username "guest" n
                                        ∧ n !! "kind" = Some (VStr "info"))
                            (coll "notification" d)).
    { eapply Forall_impl; [exact Hreach|]. apply broadcast_fields. }
    split; [exact Hguest|].
    intros username. rewrite get_notifications_connected.
    rewrite filter_Forall; [done|].
    eapply Forall_impl; [exact Hguest|]. intros n [Hn _]. by right.
Qed.

(** ** Profile update *)

Lemma update_lookup p k :
  filter (λ kv : string * value, kv.2 ≠ VNull ∧ kv.1 ≠ "username")
         (ProfileUpdate.model_dump p) !! k = supplied p k.
Proof.
  rewrite map_lookup_filter. unfold supplied, ProfileUpdate.model_dump.
  destruct (decide (k = "full_name")) as [->|];
    [by destruct (ProfileUpdate.full_name p)|].
  destruct (decide (k = "language")) as [->|];
    [by destruct (ProfileUpdate.language p)|].
  destruct (decide (k = "push_notifications")) as [->|];
    [by destruct (ProfileUpdate.push_notifications p)|].
  destruct (decide (k = "username")) as [->|].
  - rewrite lookup_insert_eq. simpl. rewrite option_guard_False; [done|]. tauto.
  - by rewrite !lookup_insert_ne, lookup_singleton_ne by done.
Qed.

Lemma update_profile_record p d :
  let u := str_or (ProfileUpdate.username p) "guest" in
  ∃ d', update_profile p (Some d) =
          (Ok {[ "message" := VStr "Saved successfully" ]}, Some d')
        ∧ profile_upserted p u (next_id d) (coll "profile" d) (coll "profile" d').
Proof.
  intros u. eexists. rewrite update_profile_connected. split; [done|].
  fold u. set (q := QEq [("username", VStr u)]).
  set (upd := filter _ (ProfileUpdate.model_dump p)).
  assert (Hupd : ∀ k, upd !! k = supplied p k) by apply update_lookup.
  clearbody upd.
  assert (Hfilter : ∀ l, filter (has_username u) l = List.filter (matches q) l).
  { intros l. symmetry. apply filter_matches. intros doc. apply matches_username. }
  rewrite coll_insert_one_ne by done. unfold update_one_upsert.
  destruct (first_match (matches q) (coll "profile" d))
    as [Hnone|(l1 & x & l2 & Hsplit & H1 & Hx)].
  - rewrite (update_first_none _ _ _ Hnone). right. split; [by rewrite Hfilter|].
    eexists. rewrite coll_insert_one. split; [done|]. intros k.
    assert (Hid : (upd ∪ query_fields q) !! "_id" = None).
    { apply lookup_union_None_2; [apply Hupd | done]. }
    unfold with_id. rewrite Hid.
    destruct (decide (k = "_id")) as [->|]; [by rewrite lookup_insert_eq|].
    rewrite lookup_insert_ne by done.
    destruct (decide (k = "username")) as [->|].
    + rewrite lookup_union_r by apply Hupd. done.
    + rewrite lookup_union_l; [apply Hupd|].
      simpl. by rewrite lookup_insert_ne, lookup_empty.
  - rewrite Hsplit, (update_first_some _ _ _ _ _ H1 Hx), coll_set_coll. left.
    exists l1, x, l2, (upd ∪ x). split_and!; [done| by rewrite Hfilter | by apply matches_username |done|].
    intros k. rewrite lookup_union, Hupd.
    by destruct (supplied p k), (x !! k).
Qed.

(** C5: a profile update writes into the stored record of the username
    the fields that the payload gives with a value other than null, and
    keeps every other field of that record; when the username has no record,
    the record that the upsert adds holds the username it is keyed by, an
    id and the given fields, and none of the defaults the schema declares. *)
Theorem update_profile_merges (p : ProfileUpdate.t) (d : Database) :
  let u := str_or (ProfileUpdate.username p) "guest" in
  ∃ d',
    update_profile p (Some d) =
      (Ok {[ "message" := VStr "Saved successfully" ]}, Some d')
    ∧ profile_upserted p u (next_id d) (coll "profile" d) (coll "profile" d')
    ∧ (filter (has_username u) (coll "profile" d) = [] →
       ∃ new,
         coll "profile" d' = coll "profile" d ++ [new]
         ∧ new !! "username" = Some (VStr u)
         ∧ new !! "full_name" = VStr <$> ProfileUpdate.full_name p
         ∧ new !! "language" = VStr <$> ProfileUpdate.language p
         ∧ new !! "push_notifications" = VBool <$> ProfileUpdate.push_notifications p
         ∧ dom new ⊆ ({["_id"; "username"; "full_name"; "language";
                        "push_notifications"]} : gset string)).
Proof.
  intros u. destruct (update_profile_record p d) as (d' & Hrun & Hup).
  exists d'. split_and!; [done|done|]. intros Hnone.
  destruct Hup as [(l1 & x & l2 & x' & Hsplit & _ & Hx & _)|(_ & new & Hnew & Hk)].
  { exfalso. fold u in Hx. rewrite Hsplit, filter_app, filter_cons_True in Hnone by done.
    by destruct (filter (has_username u) l1). }
  exists new. split_and!; [done|by rewrite Hk..|].
  intros k [v Hv]%elem_of_dom. rewrite Hk in Hv.
  repeat case_decide; [set_solver..|].
  unfold supplied in Hv. repeat case_decide; [set_solver..|done].
Qed.

(** ** The falsy username *)

Lemma str_or_falsy (u : option string) d :
  u = None ∨ u = Some "" → str_or u d = d.
Proof. by intros [-> | ->]. Qed.

(** C10: a username that is null or the empty string in the body of a
    note creation, a quiz submission or a profile update is taken as
    ["guest"]: the note and the quiz result are stored with username
    ["guest"], and the profile update does what it does for ["guest"], on
    the record of ["guest"]; no record of the empty username is made or
    changed. *)
Theorem falsy_username_is_guest (u : option string) :
  u = None ∨ u = Some "" →
  (∀ title content d,
     ∃ d' note,
       (add_note (NoteCreate.mk title content u) (Some d)).2 = Some d'
       ∧ coll "note" d' = coll "note" d ++ [note]
       ∧ note !! "username" = Some (VStr "guest"))
  ∧ (∀ answers subject now d,
       ∃ d' result,
         (submit_quiz (QuizAnswer.mk answers subject u) now (Some d)).2 = Some d'
         ∧ coll "quizresult" d' = coll "quizresult" d ++ [result]
         ∧ result !! "username" = Some (VStr "guest"))
  ∧ (∀ full_name language push s,
       update_profile (ProfileUpdate.mk u full_name language push) s =
       update_profile (ProfileUpdate.mk (Some "guest") full_name language push) s)
  ∧ (∀ full_name language push d,
       let p := ProfileUpdate.mk u full_name language push in
       ∃ d',
         (update_profile p (Some d)).2 = Some d'
         ∧ profile_upserted p "guest" (next_id d) (coll "profile" d) (coll "profile" d')
         ∧ filter (has_username "") (coll "profile" d') =
           filter (has_username "") (coll "profile" d)).
Proof.
  intros Hu. split_and!.
  - intros title content d. rewrite add_note_connected. simpl.
    rewrite (str_or_falsy _ _ Hu). do 2 eexists. split; [done|].
    rewrite coll_insert_one_ne, coll_insert_one by done. done.
  - intros answers subject now d. rewrite submit_quiz_connected. simpl.
    rewrite (str_or_falsy _ _ Hu). do 2 eexists. split; [done|].
    rewrite coll_insert_one_ne, coll_insert_one by done. done.
  - intros full_name language push s. by destruct Hu as [-> | ->].
  - intros full_name language push d p.
    destruct (update_profile_record p d) as (d' & Hrun & Hup).
    simpl in Hup. rewrite (str_or_falsy _ _ Hu) in Hup.
    exists d'. rewrite Hrun. split_and!; [done|done|].
    destruct Hup as [(l1 & x & l2 & x' & -> & _ & Hx & -> & Hk)|(_ & new & -> & Hk)].
    + assert (Hx' : has_username "guest" x') by (unfold has_username; by rewrite Hk).
      rewrite !filter_app, !filter_cons_False; [done|..];
        unfold has_username in *; congruence.
    + rewrite filter_app, (filter_singleton_False _ _ []), app_nil_r; [done|].
      unfold has_username. rewrite Hk. simpl. congruence.
Qed.

Lemma falsy_username_is_guest_witness :
  ∃ d' note,
    (add_note (NoteCreate.mk "Algebra" "x + x = 2x" (Some "")) (Some empty_db)).2 = Some d'
    ∧ coll "note" d' = coll "note" empty_db ++ [note]
    ∧ note !! "username" = Some (VStr "guest").
Proof.
  apply (falsy_username_is_guest (Some "")). by right.
Defined.


(** * Further properties of the handlers *)

(** ** Notes: create, list, delete *)

Lemma filter_snoc_True {A} (P : A → Prop) `{∀ x, Decision (P x)} (l : list A) x :
  P x → filter P (l ++ [x]) = filter P l ++ [x].
Proof. intros Hx. by rewrite filter_app, (filter_singleton_True _ _ []). Qed.

Lemma filter_snoc_False {A} (P : A → Prop) `{∀ x, Decision (P x)} (l : list A) x :
  ¬ P x → filter P (l ++ [x]) = filter P l.
Proof.
  intros Hx. by rewrite filter_app, (filter_singleton_False _ _ []), app_nil_r.
Qed.

Lemma filter_username (u : string) (l : list Doc) :
  List.filter (matches (QEq [("username", VStr u)])) l = filter (has_username u) l.
Proof. apply filter_matches. intros doc. apply matches_username. Qed.

Lemma filter_note_of (u t : string) (l : list Doc) :
  List.filter (matches (note_query u t)) l = filter (note_of u t) l.
Proof. apply filter_matches. intros doc. apply matches_pair. Qed.

Lemma get_notes_connected username d :
  get_notes username (Some d) =
    (Ok (restrict Note.model_fields <$> filter (has_username username) (coll "note" d)),
     Some d).
Proof.
  unfold get_notes, get_documents, bind, ret, find. simpl default.
  by rewrite filter_username.
Qed.

Lemma restrict_new_note note n :
  restrict Note.model_fields (<["_id" := VId n]> (Note.model_dump note)) =
    Note.model_dump note.
Proof. done. Qed.

Lemma with_id_note note n :
  with_id (Note.model_dump note) n = <["_id" := VId n]> (Note.model_dump note).
Proof. done. Qed.

Lemma coll_note_added payload d :
  ∃ d', (add_note payload (Some d)).2 = Some d'
        ∧ coll "note" d' =
            coll "note" d ++
            [<["_id" := VId (next_id d)]>
               (Note.model_dump
                  (Note.mk (str_or (NoteCreate.username payload) "guest")
                           (NoteCreate.title payload) (NoteCreate.content payload)))]
        ∧ next_id d' = S (S (next_id d)).
Proof.
  eexists. rewrite add_note_connected. split; [done|].
  by rewrite coll_insert_one_ne, coll_insert_one, with_id_note by done.
Qed.

Lemma delete_note_found title username d l1 x l2 :
  coll "note" d = l1 ++ x :: l2 →
  List.filter (matches (note_query username title)) l1 = [] →
  matches (note_query username title) x = true →
  delete_note title username (Some d) =
    (Ok {[ "message" := VStr "Note deleted successfully" ]},
     Some (notified "Note deleted successfully" (set_coll "note" (l1 ++ l2) d))).
Proof.
  intros Hsplit H1 Hx. unfold delete_note. mstep. unfold delete_one.
  fold (note_query username title).
  rewrite Hsplit, (remove_first_some _ _ _ _ H1 Hx). rewrite decide_False by done.
  erewrite bind_ok by reflexivity. rewrite decide_False by done.
  by erewrite bind_ok by apply notify_connected.
Qed.

Lemma delete_note_missing title username d :
  List.filter (matches (note_query username title)) (coll "note" d) = [] →
  delete_note title username (Some d) = (HTTPError 404 "Note not found", Some d).
Proof.
  intros Hnone. unfold delete_note. mstep. unfold delete_one.
  fold (note_query username title).
  rewrite (remove_first_none _ _ Hnone). rewrite decide_True by done.
  erewrite bind_ok by reflexivity. by rewrite decide_True by done.
Qed.

(** X1: a note that was created is listed: after [add_note] the listing of
    the note's owner is the listing from before with the new note, as its
    username, title and content, at the end; a username that is neither null
    nor empty is the owner as given; the listing of every other username is
    as before. *)
Theorem add_note_then_get_notes (payload : NoteCreate.t) (d : Database) :
  let owner := str_or (NoteCreate.username payload) "guest" in
  ∃ d' listed,
    (add_note payload (Some d)).2 = Some d'
    ∧ (get_notes owner (Some d)).1 = Ok listed
    ∧ (get_notes owner (Some d')).1 =
        Ok (listed ++ [ {[ "username" := VStr owner;
                           "title" := VStr (NoteCreate.title payload);
                           "content" := VStr (NoteCreate.content payload) ]} ])
    ∧ (∀ u, NoteCreate.username payload = Some u → u ≠ "" → owner = u)
    ∧ (∀ other, other ≠ owner →
         (get_notes other (Some d')).1 = (get_notes other (Some d)).1).
Proof.
  intros owner. destruct (coll_note_added payload d) as (d' & Hrun & Hcoll & _).
  exists d'. eexists. rewrite !get_notes_connected. cbn [fst].
  split_and!; [done|done| | |].
  - rewrite Hcoll, filter_snoc_True by done. by rewrite fmap_app.
  - intros u Hu Hne. subst owner. rewrite Hu. simpl. by rewrite decide_False.
  - intros other Hne. rewrite !get_notes_connected, Hcoll. cbn [fst].
    rewrite filter_snoc_False; [done|].
    unfold has_username. fold owner.
    change (Some (VStr owner) ≠ Some (VStr other)). congruence.
Qed.

(** X2: note creation checks nothing: each call adds one record for the
    note's username and title, so the same note created twice is stored
    twice. *)
Theorem add_note_allows_duplicates (payload : NoteCreate.t) (d : Database) :
  let owner := str_or (NoteCreate.username payload) "guest" in
  ∃ d1 d2,
    (add_note payload (Some d)).2 = Some d1
    ∧ (add_note payload (Some d1)).2 = Some d2
    ∧ length (filter (note_of owner (NoteCreate.title payload)) (coll "note" d1)) =
        S (length (filter (note_of owner (NoteCreate.title payload)) (coll "note" d)))
    ∧ length (filter (note_of owner (NoteCreate.title payload)) (coll "note" d2)) =
        S (S (length (filter (note_of owner (NoteCreate.title payload)) (coll "note" d)))).
Proof.
  intros owner. destruct (coll_note_added payload d) as (d1 & Hrun1 & Hcoll1 & _).
  destruct (coll_note_added payload d1) as (d2 & Hrun2 & Hcoll2 & _).
  exists d1, d2. split_and!; [done|done|..].
  - rewrite Hcoll1, filter_snoc_True, length_app by done. simpl. lia.
  - rewrite Hcoll2, Hcoll1, !filter_snoc_True, !length_app by done. simpl. lia.
Qed.

(** X3: deleting a note right after it was created never answers 404 and
    brings the number of notes of that username and title back to what it
    was; when there was no such note before, the note collection is, record
    for record, as before the creation. *)
Theorem add_note_then_delete_note (payload : NoteCreate.t) (d : Database) :
  let owner := str_or (NoteCreate.username payload) "guest" in
  let title := NoteCreate.title payload in
  ∃ d1 d2,
    (add_note payload (Some d)).2 = Some d1
    ∧ delete_note title owner (Some d1) =
        (Ok {[ "message" := VStr "Note deleted successfully" ]}, Some d2)
    ∧ length (filter (note_of owner title) (coll "note" d2)) =
        length (filter (note_of owner title) (coll "note" d))
    ∧ (filter (note_of owner title) (coll "note" d) = [] →
       coll "note" d2 = coll "note" d).
Proof.
  intros owner title. destruct (coll_note_added payload d) as (d1 & Hrun1 & Hcoll1 & _).
  fold owner title in Hcoll1.
  set (new := <["_id" := VId (next_id d)]> _) in Hcoll1.
  assert (Hnew : matches (note_query owner title) new = true) by (by apply matches_pair).
  exists d1.
  destruct (first_match (matches (note_query owner title)) (coll "note" d))
    as [Hnone|(l1 & x & l2 & Hsplit & H1 & Hx)].
  - eexists. rewrite (delete_note_found _ _ _ (coll "note" d) new []);
      [|by rewrite Hcoll1|done|done].
    split_and!; [done|done|..];
      rewrite coll_notified_ne, coll_set_coll, app_nil_r by done; done.
  - eexists. rewrite (delete_note_found _ _ _ l1 x (l2 ++ [new]));
      [|by rewrite Hcoll1, Hsplit, <- app_assoc|done|done].
    split_and!; [done|done|..];
      rewrite coll_notified_ne, coll_set_coll by done.
    + apply matches_pair in Hx, Hnew.
      rewrite Hsplit, filter_app, (filter_snoc_True _ l2), filter_app,
        filter_cons_True by done.
      rewrite !length_app. simpl. lia.
    + rewrite Hsplit, <- filter_note_of, (filter_first _ _ _ _ H1 Hx). done.
Qed.

(** ** What a request leaves alone *)

(** X4: a request writes to the collections of its handler and to no
    other: reads write nowhere, a profile read writes to the profiles only,
    and every other write goes to its own collection and the notifications. *)
Theorem serve_frame db_truth (r : request) (d d' : Database) (name : string) :
  serve db_truth r (Some d) = Some d' →
  name ∉ written r →
  coll name d' = coll name d.
Proof.
  intros Hserve Hname. apply serve_effect in Hserve.
  destruct Hserve; simpl in Hname; [done|..];
    repeat (apply not_elem_of_cons in Hname as [? Hname]);
    unfold notified; by rewrite ?coll_insert_one_ne, ?coll_set_coll_ne,
      ?coll_update_one_upsert_ne, ?coll_seeded by done.
Qed.

Lemma serve_frame_witness :
  coll "practice"
       (notified "New note saved"
          (insert_one "note"
             (Note.model_dump (Note.mk "guest" "Algebra" "x + x = 2x")) empty_db).1)
  = coll "practice" empty_db.
Proof.
  apply (serve_frame (Some true) (AddNote (NoteCreate.mk "Algebra" "x + x = 2x" None))).
  - reflexivity.
  - simpl. repeat (apply not_elem_of_cons; split; [done|]). apply not_elem_of_nil.
Defined.

(** X5: when the store is not connected, the handlers that test for it
    (note deletion, practice start, profile read and profile update) fail
    with 500 and the detail "Database not available", and seeding answers
    ok without writing, whatever a truth test of a handle would give. *)
Theorem unconnected_store db_truth title username today payload :
  delete_note title username None = (HTTPError 500 "Database not available", None)
  ∧ start_practice username today None = (HTTPError 500 "Database not available", None)
  ∧ get_profile username None = (HTTPError 500 "Database not available", None)
  ∧ update_profile payload None = (HTTPError 500 "Database not available", None)
  ∧ seed_data db_truth None = (Ok {[ "status" := VStr "ok" ]}, None).
Proof. by destruct db_truth as [[]|]. Qed.

(** ** Seeding *)

Lemma next_id_insert_one name doc d :
  doc !! "_id" = None → next_id (insert_one name doc d).1 = S (next_id d).
Proof. intros H. unfold insert_one. by rewrite H. Qed.







(** ** Practice history *)

Lemma practice_history_connected username d :
  practice_history username (Some d) =
    (Ok (history_entry <$> filter (has_username username) (coll "practice" d)), Some d).
Proof.
  unfold practice_history, get_documents, bind, ret, find. simpl default.
  by rewrite filter_username.
Qed.

Lemma filter_practice (u t : string) (l : list Doc) :
  List.filter (matches (practice_query u t)) l =
  filter (λ doc, has_username u doc ∧ doc !! "date" = Some (VStr t)) l.
Proof. apply filter_matches. intros doc. apply matches_pair. Qed.

(** X7: the first practice start of a username on a date adds the entry of
    that date, with status ["completed"], at the end of the username's
    history; a later start on that date finds the record and leaves the
    store, and so the history, as it is. *)
Theorem start_practice_then_history (username today : string) (d : Database) :
  let done_today := λ doc : Doc,
    has_username username doc ∧ doc !! "date" = Some (VStr today) in
  ∃ d1 listed,
    (start_practice username today (Some d)).2 = Some d1
    ∧ (practice_history username (Some d)).1 = Ok listed
    ∧ (filter done_today (coll "practice" d) = [] →
       (practice_history username (Some d1)).1 =
         Ok (listed ++ [ {[ "date" := VStr today; "status" := VStr "completed" ]} ]))
    ∧ (filter done_today (coll "practice" d) ≠ [] → d1 = d).
Proof.
  intros done_today. subst done_today.
  destruct (find "practice" (practice_query username today) d) as [|x l] eqn:E.
  - do 2 eexists. rewrite start_practice_new by done.
    rewrite !practice_history_connected. cbn [fst snd].
    split_and!; [done|done| |].
    + intros _. unfold notified.
      rewrite coll_insert_one_ne, coll_insert_one, with_id_practice by done.
      rewrite filter_snoc_True by done. by rewrite fmap_app.
    + unfold find in E. rewrite filter_practice in E. by rewrite E.
  - exists d. eexists.
    rewrite start_practice_done by (unfold practice_query in E; by rewrite E).
    rewrite !practice_history_connected. cbn [fst snd].
    split_and!; [done|done| |done].
    unfold find in E. rewrite filter_practice in E. by rewrite E.
Qed.

(** X8: the practice history has one entry for each stored practice
    record of the username, in storage order; an entry has the keys [date]
    and [status] and no other, with null where the record lacks the field. *)
Theorem practice_history_entries (username : string) (d : Database) :
  ∃ listed,
    practice_history username (Some d) = (Ok listed, Some d)
    ∧ length listed = length (filter (has_username username) (coll "practice" d))
    ∧ (∀ i doc,
         filter (has_username username) (coll "practice" d) !! i = Some doc →
         ∃ entry,
           listed !! i = Some entry
           ∧ dom entry = ({["date"; "status"]} : gset string)
           ∧ entry !! "date" = Some (default VNull (doc !! "date"))
           ∧ entry !! "status" = Some (default VNull (doc !! "status"))).
Proof.
  eexists. rewrite practice_history_connected. split_and!; [done|..].
  - by rewrite length_fmap.
  - intros i doc Hdoc. exists (history_entry doc).
    rewrite list_lookup_fmap, Hdoc. split_and!; [done| |done|done].
    unfold history_entry. rewrite dom_insert_L, dom_singleton_L. done.
Qed.

(** ** Listings show the fields of the model only *)

Lemma restrict_lookup fields (doc : Doc) k :
  restrict fields doc !! k = if decide (k ∈ fields) then doc !! k else None.
Proof.
  unfold restrict. rewrite map_lookup_filter.
  destruct (doc !! k) as [v|]; simpl; [|by case_decide].
  case_decide.
  - by rewrite option_guard_True.
  - by rewrite option_guard_False.
Qed.




(** ** Quiz: what is stored, and answers beyond or below the bank *)

Lemma with_id_quizresult r n :
  with_id (QuizResult.model_dump r) n = <["_id" := VId n]> (QuizResult.model_dump r).
Proof. done. Qed.

(** X10: on a connected store every submission is scored and stored: the
    count lies between 0 and the total, the total is the length of the bank,
    and the stored result carries the count and total of the response, the
    time of the call, the username, and the subject, which is ["General"]
    when the body gives none or an empty one. *)
Theorem submit_quiz_stores_result (payload : QuizAnswer.t) (now : Z) (d : Database) :
  ∃ d' correct stored,
    submit_quiz payload now (Some d) =
      (Ok {[ "message" := VStr "You have completed the quiz!";
             "correct" := VInt correct;
             "total" := VInt (Z.of_nat (length SAMPLE_QUESTIONS)) ]}, Some d')
    ∧ 0 ≤ correct ≤ Z.of_nat (length SAMPLE_QUESTIONS)
    ∧ coll "quizresult" d' = coll "quizresult" d ++ [stored]
    ∧ stored !! "correct" = Some (VInt correct)
    ∧ stored !! "total" = Some (VInt (Z.of_nat (length SAMPLE_QUESTIONS)))
    ∧ stored !! "created_at" = Some (VTime now)
    ∧ stored !! "username" = Some (VStr (str_or (QuizAnswer.username payload) "guest"))
    ∧ stored !! "subject" = Some (VStr (str_or (QuizAnswer.subject payload) "General"))
    ∧ (QuizAnswer.subject payload = None ∨ QuizAnswer.subject payload = Some "" →
       stored !! "subject" = Some (VStr "General")).
Proof.
  do 3 eexists. rewrite submit_quiz_connected. split; [done|].
  split; [apply tally_bounds|].
  rewrite coll_insert_one_ne, coll_insert_one, with_id_quizresult by done.
  split_and!; [done..|].
  intros Hs. by rewrite (str_or_falsy _ _ Hs).
Qed.

Lemma zip_app_beyond (bank : list QuizQuestion.t) (answers extra : list Z) :
  (length bank ≤ length answers)%nat →
  zip bank (answers ++ extra) = zip bank answers.
Proof.
  intros Hlen.
  rewrite <- (zip_with_take_r pair bank (answers ++ extra)).
  rewrite <- (zip_with_take_r pair bank answers).
  by rewrite take_app_le.
Qed.

(** X11: answers beyond the length of the bank are not looked at: with at
    least as many answers as questions, further answers leave the score as
    it is. *)
Theorem extra_answers_ignored (bank : list QuizQuestion.t) (answers extra : list Z) :
  Forall (λ q, QuizQuestion.valid q = true) bank →
  (length bank ≤ length answers)%nat →
  score bank (answers ++ extra) = score bank answers.
Proof.
  intros Hv Hlen. rewrite !score_tally by done.
  unfold tally. by rewrite zip_app_beyond.
Qed.

Lemma extra_answers_ignored_witness :
  score SAMPLE_QUESTIONS ([1; 0] ++ [1; 1; 1]) = score SAMPLE_QUESTIONS [1; 0].
Proof.
  apply (extra_answers_ignored SAMPLE_QUESTIONS [1; 0] [1; 1; 1]).
  - apply SAMPLE_QUESTIONS_valid.
  - simpl. lia.
Defined.

Lemma tally_pad bank : ∀ answers n,
  Forall (λ q, QuizQuestion.valid q = true) bank →
  tally bank (answers ++ replicate n (-1)) = tally bank answers.
Proof.
  unfold tally.
  induction bank as [|q bank IH]; intros answers n Hv; [done|].
  inversion Hv as [|? ? Hq Hbank]; subst.
  pose proof (valid_correct_index _ Hq) as Hge.
  destruct answers as [|a answers]; simpl.
  - destruct n as [|n]; simpl; [done|].
    rewrite filter_cons_False by (simpl; lia).
    specialize (IH [] n Hbank). simpl in IH. rewrite IH. by destruct bank.
  - rewrite !filter_cons. simpl. specialize (IH answers n Hbank).
    case_decide; simpl; lia.
Qed.

(** X12: an answer of -1 is scored like no answer: for a bank of valid
    questions, ending the answers with any number of -1 leaves the score as
    it is. *)
Theorem sentinel_answers_score_nothing (bank : list QuizQuestion.t)
    (answers : list Z) (n : nat) :
  Forall (λ q, QuizQuestion.valid q = true) bank →
  score bank (answers ++ replicate n (-1)) = score bank answers.
Proof.
  intros Hv. rewrite !score_tally by done. by rewrite tally_pad.
Qed.

Lemma sentinel_answers_score_nothing_witness :
  score SAMPLE_QUESTIONS ([1] ++ replicate 1 (-1)) = score SAMPLE_QUESTIONS [1].
Proof.
  apply (sentinel_answers_score_nothing SAMPLE_QUESTIONS [1] 1).
  apply SAMPLE_QUESTIONS_valid.
Defined.

(** ** Profile: upsert, read back, one record for a username *)

Lemma coll_update_one_upsert name q upd d :
  coll name (update_one_upsert name q upd d) =
    match update_first q upd (coll name d) with
    | Some l => l
    | None => coll name d ++ [with_id (upd ∪ query_fields q) (next_id d)]
    end.
Proof.
  unfold update_one_upsert. destruct (update_first _ _ _).
  - apply coll_set_coll.
  - apply coll_insert_one.
Qed.

Lemma union_absorb (upd x : Doc) :
  (∀ k v, upd !! k = Some v → x !! k = Some v) → upd ∪ x = x.
Proof.
  intros H. apply map_eq. intros k. rewrite lookup_union.
  destruct (upd !! k) as [v|] eqn:E.
  - rewrite (H _ _ E). done.
  - by destruct (x !! k).
Qed.

(** The profile collection after a profile update, from the one before and
    the next fresh id. *)
Lemma update_profile_profiles p d :
  let q := QEq [("username", VStr (str_or (ProfileUpdate.username p) "guest"))] in
  let upd : Doc :=
    filter (λ kv, kv.2 ≠ VNull ∧ kv.1 ≠ "username") (ProfileUpdate.model_dump p) in
  ∃ d', update_profile p (Some d) =
          (Ok {[ "message" := VStr "Saved successfully" ]}, Some d')
        ∧ next_id d' = S (next_id (update_one_upsert "profile" q upd d))
        ∧ coll "profile" d' =
            match update_first q upd (coll "profile" d) with
            | Some l => l
            | None => coll "profile" d ++ [<["_id" := VId (next_id d)]> (upd ∪ query_fields q)]
            end.
Proof.
  intros q upd. eexists. rewrite update_profile_connected. split; [done|].
  fold q upd. split; [done|].
  rewrite coll_insert_one_ne by done. rewrite coll_update_one_upsert.
  destruct (update_first q upd (coll "profile" d)); [done|].
  unfold with_id.
  assert ((upd ∪ query_fields q) !! "_id" = None) as ->; [|done].
  apply lookup_union_None_2; [apply update_lookup | done].
Qed.

Lemma matches_updated u (upd x : Doc) :
  upd !! "username" = None →
  matches (QEq [("username", VStr u)]) (upd ∪ x) = matches (QEq [("username", VStr u)]) x.
Proof.
  intros Hupd. apply Bool.eq_true_iff_eq. rewrite !matches_username.
  unfold has_username. by rewrite lookup_union_r.
Qed.

(** X13: an update that is repeated changes the profiles no further: after
    the first update the record of the username holds the supplied fields,
    and the second finds that record and writes the same values over it. *)
Theorem update_profile_idempotent (p : ProfileUpdate.t) (d : Database) :
  ∃ d1 d2,
    (update_profile p (Some d)).2 = Some d1
    ∧ (update_profile p (Some d1)).2 = Some d2
    ∧ coll "profile" d2 = coll "profile" d1.
Proof.
  destruct (update_profile_profiles p d) as (d1 & Hrun1 & _ & Hcoll1).
  destruct (update_profile_profiles p d1) as (d2 & Hrun2 & _ & Hcoll2).
  exists d1, d2. rewrite Hrun1, Hrun2. split_and!; [done|done|].
  rewrite Hcoll2. clear Hrun1 Hrun2 Hcoll2.
  set (q := QEq [("username", VStr (str_or (ProfileUpdate.username p) "guest"))]) in *.
  set (upd := filter _ (ProfileUpdate.model_dump p)) in *.
  assert (Hupd : ∀ k, upd !! k = supplied p k) by apply update_lookup.
  clearbody upd.
  destruct (first_match (matches q) (coll "profile" d))
    as [Hnone|(l1 & x & l2 & Hsplit & H1 & Hx)].
  - rewrite (update_first_none _ _ _ Hnone) in Hcoll1. rewrite Hcoll1.
    rewrite (update_first_some q upd _ _ [] Hnone).
    + f_equal. f_equal. apply union_absorb. intros k v Hk.
      destruct (decide (k = "_id")) as [->|]; [by rewrite Hupd in Hk|].
      rewrite lookup_insert_ne by done. by rewrite (lookup_union_Some_l _ _ _ _ Hk).
    + apply matches_username. unfold has_username.
      rewrite lookup_insert_ne by done. by rewrite lookup_union_r by apply Hupd.
  - rewrite Hsplit, (update_first_some _ _ _ _ _ H1 Hx) in Hcoll1. rewrite Hcoll1.
    rewrite (update_first_some q upd _ _ _ H1).
    + f_equal. f_equal. apply union_absorb. intros k v Hk.
      by rewrite (lookup_union_Some_l _ _ _ _ Hk).
    + unfold q. rewrite matches_updated; [done|apply Hupd].
Qed.

Lemma of_doc_lookups (doc : Doc) u full_name language push :
  doc !! "username" = Some (VStr u) →
  doc !! "full_name" = VStr <$> full_name →
  doc !! "language" = VStr <$> language →
  doc !! "push_notifications" = VBool <$> push →
  Profile.of_doc (restrict Profile.model_fields doc) =
    Some (Profile.mk u full_name (default "en" language) (default true push)).
Proof.
  intros Hu Hf Hl Hp.
  unfold Profile.of_doc, Profile.str_field, Profile.opt_str_field, Profile.bool_field.
  rewrite !restrict_lookup.
  rewrite !decide_True by (apply list_elem_of_In; simpl; tauto).
  rewrite Hu, Hf, Hl, Hp. by destruct full_name, language, push.
Qed.

(** X14: a profile that an update created is completed when it is read, not
    when it is stored: for a username without a record, the update stores
    the supplied fields only, and the read that follows returns them with
    the defaults of the schema for the fields that are missing, and writes
    nothing. *)
Theorem update_profile_then_get_profile (username : string)
    (full_name language : option string) (push : option bool) (d : Database) :
  username ≠ "" →
  filter (has_username username) (coll "profile" d) = [] →
  let p := ProfileUpdate.mk (Some username) full_name language push in
  ∃ d1 stored,
    (update_profile p (Some d)).2 = Some d1
    ∧ coll "profile" d1 = coll "profile" d ++ [stored]
    ∧ stored !! "language" = VStr <$> language
    ∧ stored !! "push_notifications" = VBool <$> push
    ∧ get_profile username (Some d1) =
        (Ok (Profile.mk username full_name (default "en" language) (default true push)),
         Some d1).
Proof.
  intros Hne Hnone p. destruct (update_profile_record p d) as (d1 & Hrun & Hup).
  simpl in Hup. rewrite decide_False in Hup by done.
  destruct Hup as [(l1 & x & l2 & x' & Hsplit & _ & Hx & _)|(_ & new & Hnew & Hk)].
  { exfalso. rewrite Hsplit, filter_app, filter_cons_True in Hnone by done.
    by destruct (filter (has_username username) l1). }
  exists d1, new. rewrite Hrun. split_and!; [done|done|by rewrite Hk..|].
  assert (Hfind : find "profile" (QEq [("username", VStr username)]) d1 = [new]).
  { unfold find. rewrite filter_username, Hnew, filter_snoc_True, Hnone; [done|].
    unfold has_username. by rewrite Hk. }
  rewrite (get_profile_stored _ _ _ _ Hfind).
  by rewrite (of_doc_lookups new username full_name language push) by (by rewrite Hk).
Qed.

Lemma update_profile_then_get_profile_witness :
  ∃ d1 stored,
    (update_profile (ProfileUpdate.mk (Some "alice") None (Some "fr") None)
                    (Some empty_db)).2 = Some d1
    ∧ coll "profile" d1 = coll "profile" empty_db ++ [stored]
    ∧ stored !! "language" = VStr <$> Some "fr"
    ∧ stored !! "push_notifications" = VBool <$> None
    ∧ get_profile "alice" (Some d1) =
        (Ok (Profile.mk "alice" None (default "en" (Some "fr")) (default true None)),
         Some d1).
Proof.
  apply (update_profile_then_get_profile "alice" None (Some "fr") None empty_db).
  - done.
  - reflexivity.
Defined.

(** X15: a profile stored from a model reads back as that model: when the
    first record of a username is the dump of a profile, with the id the
    store gave it, the profile read returns this profile and writes nothing. *)
Theorem get_profile_reads_dump (p : Profile.t) (n : nat) (d : Database)
    (l1 l2 : list Doc) :
  coll "profile" d = l1 ++ <["_id" := VId n]> (Profile.model_dump p) :: l2 →
  filter (has_username (Profile.username p)) l1 = [] →
  get_profile (Profile.username p) (Some d) = (Ok p, Some d).
Proof.
  intros Hsplit Hnone. rewrite <- filter_username in Hnone.
  assert (Hfind : find "profile" (QEq [("username", VStr (Profile.username p))]) d =
                  <["_id" := VId n]> (Profile.model_dump p)
                  :: List.filter (matches (QEq [("username", VStr (Profile.username p))])) l2).
  { unfold find. rewrite Hsplit. apply filter_first; [done|].
    by apply matches_username. }
  rewrite (get_profile_stored _ _ _ _ Hfind).
  by destruct p as [u [f|] language push].
Qed.

Lemma get_profile_reads_dump_witness :
  get_profile "alice"
    (Some (set_coll "profile"
             [<["_id" := VId 7]>
                (Profile.model_dump (Profile.mk "alice" (Some "Alice A.") "fr" false))]
             empty_db))
  = (Ok (Profile.mk "alice" (Some "Alice A.") "fr" false),
     Some (set_coll "profile"
             [<["_id" := VId 7]>
                (Profile.model_dump (Profile.mk "alice" (Some "Alice A.") "fr" false))]
             empty_db)).
Proof.
  apply (get_profile_reads_dump (Profile.mk "alice" (Some "Alice A.") "fr" false) 7
           _ [] []).
  - reflexivity.
  - reflexivity.
Defined.

Lemma effect_profile d r d' :
  effect d r d' →
  coll "profile" d' = coll "profile" d
  ∨ (∃ u new,
       filter (has_username u) (coll "profile" d) = []
       ∧ coll "profile" d' = coll "profile" d ++ [new]
       ∧ has_username u new)
  ∨ (∃ l1 x x' l2,
       coll "profile" d = l1 ++ x :: l2
       ∧ coll "profile" d' = l1 ++ x' :: l2
       ∧ x' !! "username" = x !! "username").
Proof.
  destruct 1; autorewrite with store; try by left.
  - right. left. exists username. eexists. split_and!; [|done|].
    + by rewrite <- filter_username.
    + by rewrite with_id_profile.
  - rewrite coll_update_one_upsert.
    set (q := QEq _). set (upd := filter _ _).
    assert (Hupd : ∀ k, upd !! k = supplied p k) by apply update_lookup.
    clearbody upd. right.
    destruct (first_match (matches q) (coll "profile" d))
      as [Hnone|(l1 & x & l2 & Hsplit & H1 & Hx)].
    + rewrite (update_first_none _ _ _ Hnone). left.
      exists (str_or (ProfileUpdate.username p) "guest"). eexists.
      split_and!; [|done|].
      * by rewrite <- filter_username.
      * unfold with_id, has_username.
        assert ((upd ∪ query_fields q) !! "_id" = None) as ->.
        { apply lookup_union_None_2; [apply Hupd | done]. }
        rewrite lookup_insert_ne by done. by rewrite lookup_union_r by apply Hupd.
    + rewrite Hsplit, (update_first_some _ _ _ _ _ H1 Hx). right.
      exists l1, x, (upd ∪ x), l2. split_and!; [done|done|].
      by rewrite lookup_union_r by apply Hupd.
Qed.

Lemma reachable_profile_unique db_truth d :
  reachable db_truth d → profile_unique d.
Proof.
  induction 1 as [|d r d' _ IH Hserve]; intros v.
  - unfold coll. simpl. rewrite lookup_empty. simpl. lia.
  - specialize (IH v).
    apply serve_effect, effect_profile in Hserve
      as [E|[(u & new & Hnone & E & Hnew)|(l1 & x & x' & l2 & Hsplit & E & Hsame)]];
      rewrite E; [done|..].
    + destruct (decide (v = u)) as [->|Hne].
      * rewrite filter_snoc_True, Hnone by done. simpl. lia.
      * rewrite filter_snoc_False; [done|].
        unfold has_username in *. congruence.
    + rewrite Hsplit in IH. rewrite !filter_app, !length_app in *.
      assert (Hiff : has_username v x' ↔ has_username v x)
        by (unfold has_username; by rewrite Hsame).
      destruct (decide (has_username v x)) as [Hx|Hx].
      * rewrite filter_cons_True in IH by done.
        rewrite filter_cons_True by (by apply Hiff). simpl in *. lia.
      * rewrite filter_cons_False in IH by done.
        rewrite filter_cons_False by (by rewrite Hiff). done.
Qed.

(** X16: the store holds at most one profile for a username: whatever
    requests were served since the store was empty, a profile read creates a
    record only for a username that has none, and an update writes into the
    record of its username or adds one when there is none. *)
Theorem profiles_unique db_truth (d : Database) (username : string) :
  reachable db_truth d →
  (length (filter (has_username username) (coll "profile" d)) ≤ 1)%nat.
Proof. intros Hreach. by apply (reachable_profile_unique db_truth). Qed.

Lemma profiles_unique_witness :
  (length (filter (has_username "alice")
                  (coll "profile"
                     (insert_one "profile"
                        (Profile.model_dump (Profile.default "alice")) empty_db).1))
   ≤ 1)%nat.
Proof.
  apply (profiles_unique (Some true)).
  apply (reachable_serve _ empty_db (GetProfile "alice")).
  - apply reachable_empty.
  - reflexivity.
Defined.

(** ** One notification for a write that succeeds *)

Lemma coll_notification_notified message d :
  coll "notification" (notified message d) =
    coll "notification" d ++ [notification_doc (next_id d) message].
Proof. apply coll_notified. Qed.

(** X17: a request that changes a note, a practice record, a quiz result or
    a profile through its own handler leaves exactly one notification, with
    the message of that handler, and a request that changes nothing leaves
    none: a deletion that answers 404, a practice start on a day already
    done; a profile read leaves none even when it creates the profile. *)
Theorem one_notification_per_write (d : Database) :
  (∀ payload, ∃ d' i,
     (add_note payload (Some d)).2 = Some d'
     ∧ coll "notification" d' =
         coll "notification" d ++ [notification_doc i "New note saved"])
  ∧ (∀ payload now, ∃ d' i,
       (submit_quiz payload now (Some d)).2 = Some d'
       ∧ coll "notification" d' =
           coll "notification" d ++
           [notification_doc i
              ("Your quiz score: "
               +:+ pretty (tally SAMPLE_QUESTIONS (QuizAnswer.answers payload))
               +:+ "/" +:+ pretty (Z.of_nat (length SAMPLE_QUESTIONS)))])
  ∧ (∀ payload, ∃ d' i,
       (update_profile payload (Some d)).2 = Some d'
       ∧ coll "notification" d' =
           coll "notification" d ++ [notification_doc i "Profile updated"])
  ∧ (∀ title username,
       delete_note title username (Some d) = (HTTPError 404 "Note not found", Some d)
       ∨ ∃ d' i,
           delete_note title username (Some d) =
             (Ok {[ "message" := VStr "Note deleted successfully" ]}, Some d')
           ∧ coll "notification" d' =
               coll "notification" d ++ [notification_doc i "Note deleted successfully"])
  ∧ (∀ username today,
       start_practice username today (Some d) =
         (Ok {[ "message" :=
                  VStr "You have completed today’s practice, try again tomorrow" ]},
          Some d)
       ∨ ∃ d' i,
           start_practice username today (Some d) =
             (Ok {[ "message" := VStr "Practice saved successfully" ]}, Some d')
           ∧ coll "notification" d' =
               coll "notification" d ++ [notification_doc i "Start today’s practice"])
  ∧ (∀ username, ∃ d',
       (get_profile username (Some d)).2 = Some d'
       ∧ coll "notification" d' = coll "notification" d).
Proof.
  split_and!.
  - intros payload. do 2 eexists. rewrite add_note_connected. split; [done|].
    cbn [snd]. rewrite coll_insert_one, coll_insert_one_ne by done.
    by rewrite with_id_notification.
  - intros payload now. do 2 eexists. rewrite submit_quiz_connected. split; [done|].
    cbn [snd]. rewrite coll_insert_one, coll_insert_one_ne by done.
    by rewrite with_id_notification.
  - intros payload. do 2 eexists. rewrite update_profile_connected. split; [done|].
    cbn [snd]. rewrite coll_insert_one, coll_update_one_upsert_ne by done.
    by rewrite with_id_notification.
  - intros title username.
    destruct (first_match (matches (note_query username title)) (coll "note" d))
      as [Hnone|(l1 & x & l2 & Hsplit & H1 & Hx)].
    + left. by apply delete_note_missing.
    + right. do 2 eexists. rewrite (delete_note_found _ _ _ _ _ _ Hsplit H1 Hx).
      split; [done|].
      by rewrite coll_notification_notified, coll_set_coll_ne by done.
  - intros username today.
    destruct (find "practice" (practice_query username today) d) as [|x l] eqn:E.
    + right. do 2 eexists. rewrite start_practice_new by done. split; [done|].
      cbn [snd]. rewrite coll_insert_one, coll_insert_one_ne by done.
      by rewrite with_id_notification.
    + left. apply start_practice_done. unfold practice_query in E. by rewrite E.
  - intros username.
    destruct (find "profile" (QEq [("username", VStr username)]) d) as [|x l] eqn:E.
    + eexists. rewrite get_profile_new by done. split; [done|].
      by rewrite coll_insert_one_ne.
    + eexists. by rewrite (get_profile_stored _ _ _ _ E).
Qed.

(** X18: a profile update stays with its username: the records of every
    other username are, one for one, as before, whether the update wrote
    into a record or added one. *)
Theorem update_profile_other_users (p : ProfileUpdate.t) (d : Database) :
  ∃ d',
    (update_profile p (Some d)).2 = Some d'
    ∧ ∀ other, other ≠ str_or (ProfileUpdate.username p) "guest" →
        filter (has_username other) (coll "profile" d') =
        filter (has_username other) (coll "profile" d).
Proof.
  destruct (update_profile_record p d) as (d' & Hrun & Hup). simpl in Hup.
  exists d'. rewrite Hrun. split; [done|]. intros other Hne.
  destruct Hup as [(l1 & x & l2 & x' & -> & _ & Hx & -> & Hk)|(_ & new & -> & Hk)].
  - assert (Hx' : has_username (str_or (ProfileUpdate.username p) "guest") x')
      by (unfold has_username; by rewrite Hk).
    rewrite !filter_app, !filter_cons_False; [done|..];
      unfold has_username in *; congruence.
  - rewrite filter_snoc_False; [done|].
    unfold has_username. rewrite Hk. simpl. congruence.
Qed.
